(** * Date Span Hours Counter: the counting and conversion core of [app.py]

    The Streamlit script [src/app.py] reads two dates and a weekly attendance
    pattern from widgets, counts how often each weekday falls in the
    inclusive span, optionally splits the days into alternating weeks A and
    B, and converts the resulting hours into a unit.

    Conventions of the embedding.
    - A [datetime.date] is its proleptic Gregorian ordinal ([toordinal()]),
      an integer between 1 (0001-01-01, a Monday) and [MAXORDINAL]
      (9999-12-31).  Adding a [timedelta] that leaves this range raises
      [OverflowError], as in CPython.
    - Python [int] is [Z]; [//] and [%] with a positive divisor are [Z.div]
      and [Z.modulo] (both round towards minus infinity).
    - Python [float] quantities (hours) are exact rationals [Q], compared
      with [==]; binary64 rounding is not modelled, except in
      [cdpas_total_hours_binary64], which evaluates the one division of the
      script on IEEE 754 doubles.
    - [dict] is [gmap], [set] is [gset]; a subscript on a missing key raises
      [KeyError].
    - Widgets are inputs: a checkbox row is a function from the column index
      to [bool], a number input a rational.  [st.stop()] ends the script. *)

From Stdlib Require Import ZArith QArith Lia String List Permutation.
From Stdlib Require Import PrimFloat FloatOps SpecFloat.
From Stdlib Require Uint63.
From stdpp Require Import base option list list_numbers gmap sets fin_maps strings
  sorting.

Local Open Scope string_scope.
Local Open Scope Z_scope.

(** ** Outcomes of running Python code *)

Inductive outcome (A : Type) : Type :=
| Done (a : A)                (* normal completion with a value *)
| Stopped (msg : string)      (* [st.stop()] after the message was shown *)
| Raised (exc : string)       (* an uncaught exception, by class name *)
| OutOfFuel.                  (* a loop of the model used up its bound *)
Arguments Done {A} a.
Arguments Stopped {A} msg.
Arguments Raised {A} exc.
Arguments OutOfFuel {A}.

#[global] Instance outcome_ret : MRet outcome := fun A a => Done a.
#[global] Instance outcome_bind : MBind outcome := fun A B k m =>
  match m with
  | Done a => k a
  | Stopped msg => Stopped msg
  | Raised exc => Raised exc
  | OutOfFuel => OutOfFuel
  end.

(** [for x in l: s = body(s, x)] with a body that may raise. *)
Fixpoint for_each {A S : Type} (body : S -> A -> outcome S) (l : list A) (s : S)
  : outcome S :=
  match l with
  | [] => Done s
  | x :: l' => s' ← body s x; for_each body l' s'
  end.

(** [[f(x) for x in l]] with an [f] that may raise. *)
Fixpoint map_outcome {A B : Type} (f : A -> outcome B) (l : list A)
  : outcome (list B) :=
  match l with
  | [] => Done []
  | x :: l' => y ← f x; ys ← map_outcome f l'; Done (y :: ys)
  end.

(** A generator that was run to its end: the values it yielded, and how it
    finished ([None] is a plain return, [Some exc] an exception raised when
    the loop asked for the next value). *)
Record generated (A : Type) : Type := Generated {
  yields : list A;
  finish : option string
}.
Arguments Generated {A} yields finish.
Arguments yields {A} g.
Arguments finish {A} g.

(** [for x in gen: s = body(s, x)]; [None] is a generator whose model ran
    out of fuel. *)
Definition for_generated {A S : Type} (body : S -> A -> outcome S)
    (gen : option (generated A)) (s : S) : outcome S :=
  match gen with
  | None => OutOfFuel
  | Some g =>
      s' ← for_each body (yields g) s;
      match finish g with
      | None => Done s'
      | Some exc => Raised exc
      end
  end.

(** [d[k]] on a dict. *)
Definition getitem {K : Type} `{Countable K} {V : Type} (d : gmap K V) (k : K)
  : outcome V :=
  match d !! k with
  | Some v => Done v
  | None => Raised "KeyError"
  end.

(** [d.get(k, dflt)]. *)
Definition dict_get {V : Type} (d : gmap Z V) (k : Z) (dflt : V) : V :=
  default dflt (d !! k).

(** [sum(xs)] over integers and over floats. *)
Definition sumZ (xs : list Z) : Z := fold_left Z.add xs 0.
Definition sumQ (xs : list Q) : Q := fold_left Qplus xs (0%Q).

(** [d.values()] and iteration over the keys of [d]. *)
Definition values {V : Type} (d : gmap Z V) : list V := (map_to_list d).*2.
Definition keys {V : Type} (d : gmap Z V) : list Z := (map_to_list d).*1.

(** [range(n)] and [enumerate(l)]. *)
Definition range (n : Z) : list Z := seqZ 0 n.
Definition enumerate {A : Type} (l : list A) : list (Z * A) :=
  zip (range (Z.of_nat (length l))) l.

(** ** [datetime.date] *)

Module Date.

Definition date : Type := Z.

Definition MAXORDINAL : Z := 3652059.

Definition valid (d : date) : Prop := 1 <= d <= MAXORDINAL.

(** [_days_before_year], [_is_leap], [_days_before_month], [_ymd2ord] of
    CPython's [datetime], to write dates as year, month, day. *)
Definition days_before_year (year : Z) : Z :=
  let y := year - 1 in y * 365 + y / 4 - y / 100 + y / 400.

Definition is_leap (year : Z) : bool :=
  (year mod 4 =? 0) && (negb (year mod 100 =? 0) || (year mod 400 =? 0)).

Definition days_before_month (year month : Z) : Z :=
  nth (Z.to_nat month) [0; 0; 31; 59; 90; 120; 151; 181; 212; 243; 273; 304; 334] 0
  + (if (2 <? month) && is_leap year then 1 else 0).

Definition ymd (year month day : Z) : date :=
  days_before_year year + days_before_month year month + day.

(** [d.weekday()]: Monday is 0, Sunday is 6. *)
Definition weekday (d : date) : Z := (d + 6) mod 7.

(** [(a - b).days]. *)
Definition days_between (a b : date) : Z := a - b.

(** [d + timedelta(days=n)]; [None] is [OverflowError]. *)
Definition add_days (d : date) (n : Z) : option date :=
  let o := d + n in
  if (0 <? o) && (o <=? MAXORDINAL) then Some o else None.

(** [d - timedelta(days=n)]. *)
Definition sub_days (d : date) (n : Z) : option date := add_days d (- n).

End Date.

Import Date.

(** ** Helpers of the script *)

(** [daterange_inclusive(start, end)]: the [while d <= end] loop, unrolled
    [fuel] times.  Running out of fuel is [None]. *)
Fixpoint daterange_loop (fuel : nat) (d end_ : date) : option (generated date) :=
  match fuel with
  | O => None
  | S fuel' =>
      if d <=? end_ then
        match add_days d 1 with
        | Some d' =>
            g ← daterange_loop fuel' d' end_;
            Some (Generated (d :: yields g) (finish g))
        | None => Some (Generated [d] (Some "OverflowError"))
        end
      else Some (Generated [] None)
  end.

Definition daterange_fuel (start end_ : date) : nat :=
  S (Z.to_nat (end_ - start + 1)).

Definition daterange_inclusive (start end_ : date) : option (generated date) :=
  daterange_loop (daterange_fuel start end_) start end_.

(** [convert_total(base_hours, day_count, unit)]. *)
Definition convert_total (base_hours : Q) (day_count : Z) (unit : string) : Q :=
  if String.eqb unit "Hourly" then base_hours
  else if String.eqb unit "15 mins" then (base_hours * 4)%Q
  else if String.eqb unit "Per diem" then inject_Z day_count
  else base_hours.

(** *** The widgets of one weekly pattern *)

Record pattern_widgets : Type := {
  chk : Z -> bool;        (* the weekday checkbox in column [i] *)
  same_hours : bool;      (* "use the same hours per day" *)
  hrs : Q;                (* the hours applied to all selected weekdays *)
  hrs_day : Z -> Q        (* the hours input of weekday [i] *)
}.

(** [checks = [checkbox(i) for i in 0..6]] and
    [{i for i, v in enumerate(checks) if v}]. *)
Definition checks_of (w : pattern_widgets) : list bool := chk w <$> range 7.

Definition selected_of (checks : list bool) : gset Z :=
  list_to_set ((filter (fun iv => iv.2 = true) (enumerate checks)).*1).

(** The hours dict of a pattern: one value for every selected weekday, or one
    input per selected weekday. *)
Definition hours_of (w : pattern_widgets) (selected : gset Z) : gmap Z Q :=
  if same_hours w then
    fold_left (fun d wd => <[wd := hrs w]> d) (elements selected) ∅
  else
    fold_left
      (fun d i => if decide (i ∈ selected) then <[i := hrs_day w i]> d else d)
      (range 7) ∅.

(** *** Single pattern *)

(** [count_total_days] and [count_weekday], nested in [single_pattern_ui]. *)
Definition count_total_days (start end_ : date) : Z :=
  days_between end_ start + 1.

Definition count_weekday (start end_ : date) (target_wd : Z) : Z :=
  let total_days := count_total_days start end_ in
  let full_weeks := total_days / 7 in
  let remainder := total_days mod 7 in
  let start_wd := weekday start in
  fold_left
    (fun count i => if (start_wd + i) mod 7 =? target_wd then count + 1 else count)
    (range remainder) full_weeks.

Definition single_pattern_ui (start_date end_date : date) (w : pattern_widgets)
  : outcome (gmap Z Z * gmap Z Q) :=
  let selected_weekdays := selected_of (checks_of w) in
  if decide (selected_weekdays = ∅) then Stopped "Select at least one weekday."
  else
    let weekday_hours := hours_of w selected_weekdays in
    let selected_counts : gmap Z Z :=
      list_to_map
        ((fun wd => (wd, count_weekday start_date end_date wd))
           <$> elements selected_weekdays) in
    Done (selected_counts, weekday_hours).

(** *** Alternating weeks *)

Definition monday_of_week (d : date) : outcome date :=
  match sub_days d (weekday d) with
  | Some m => Done m
  | None => Raised "OverflowError"
  end.

(** [{i: v for i in range(7)}]. *)
Definition dict7 {V : Type} (v : Z -> V) : gmap Z V :=
  list_to_map ((fun i => (i, v i)) <$> range 7).

(** The parity of the week of [d], counted from [anchor_monday], and the
    bucket it selects. *)
Definition week_index (anchor_monday d : date) : Z :=
  (days_between d anchor_monday / 7) mod 2.

Definition bucket_of (anchor_monday d : date) : string :=
  if week_index anchor_monday d =? 0 then "A" else "B".

(** The body of the counting loop: [counts[bucket][d.weekday()] += 1]. *)
Definition count_day (anchor_monday : date) (counts : gmap string (gmap Z Z))
    (d : date) : outcome (gmap string (gmap Z Z)) :=
  let bucket := bucket_of anchor_monday d in
  inner ← getitem counts bucket;
  c ← getitem inner (weekday d);
  Done (<[bucket := <[weekday d := c + 1]> inner]> counts).

(** [d[bucket][i] = v]. *)
Definition setitem2 {V : Type} (d : gmap string (gmap Z V)) (bucket : string)
    (i : Z) (v : V) : outcome (gmap string (gmap Z V)) :=
  inner ← getitem d bucket;
  Done (<[bucket := <[i := v]> inner]> d).

(** The body of "zero out days not selected in each pattern", for one
    bucket. *)
Definition zero_out (selected : gset Z) (bucket : string) (i : Z)
    (st : gmap string (gmap Z Z) * gmap string (gmap Z Q))
  : outcome (gmap string (gmap Z Z) * gmap string (gmap Z Q)) :=
  if decide (i ∈ selected) then Done st
  else
    counts ← setitem2 st.1 bucket i 0;
    hours ← setitem2 st.2 bucket i 0%Q;
    Done (counts, hours).

Definition alternating_pattern_ui (start_date end_date : date)
    (wa wb : pattern_widgets)
  : outcome (gmap string (gmap Z Z) * gmap string (gmap Z Q)) :=
  let wds_A := selected_of (checks_of wa) in
  let hrs_A := hours_of wa wds_A in
  let wds_B := selected_of (checks_of wb) in
  let hrs_B := hours_of wb wds_B in
  if decide (wds_A = ∅ ∧ wds_B = ∅)
  then Stopped "Select at least one weekday in Week A or Week B."
  else
    anchor_monday ← monday_of_week start_date;
    let counts : gmap string (gmap Z Z) :=
      {[ "A" := dict7 (fun _ => 0); "B" := dict7 (fun _ => 0) ]} in
    counts ← for_generated (count_day anchor_monday)
               (daterange_inclusive start_date end_date) counts;
    let hours : gmap string (gmap Z Q) :=
      {[ "A" := dict7 (fun _ => 0%Q); "B" := dict7 (fun _ => 0%Q) ]} in
    hours ← for_each
              (fun hours i =>
                 hours ← setitem2 hours "A" i (dict_get hrs_A i 0%Q);
                 setitem2 hours "B" i (dict_get hrs_B i 0%Q))
              (range 7) hours;
    for_each
      (fun st i => st ← zero_out wds_A "A" i st; zero_out wds_B "B" i st)
      (range 7) (counts, hours).

(** ** Compute: the three branches of the script *)

Record cdpas_result : Type := {
  cdpas_total_calendar_days : Z;
  weeks_in_span : Q;
  total_hours : Q;
  total_15min_units : Q
}.

Definition cdpas (start_date end_date : date) (hours_per_week : Q) : cdpas_result :=
  let total_calendar_days := days_between end_date start_date + 1 in
  let weeks_in_span := (inject_Z total_calendar_days / 7)%Q in
  let total_hours := (hours_per_week * weeks_in_span)%Q in
  {| cdpas_total_calendar_days := total_calendar_days;
     weeks_in_span := weeks_in_span;
     total_hours := total_hours;
     total_15min_units := (total_hours * 4)%Q |}.

(** The same [total_hours] on binary64 floats, as Python computes it:
    [hours_per_week * (total_calendar_days / 7.0)]. *)
Definition cdpas_total_hours_binary64 (total_calendar_days : Z)
    (hours_per_week : float) : float :=
  PrimFloat.mul hours_per_week
    (PrimFloat.div (PrimFloat.of_uint63 (Uint63.of_Z total_calendar_days))
       7%float).

Record single_result : Type := {
  single_total_calendar_days : Z;
  single_total_matching_days : Z;
  single_base_hours : Q;
  single_final_total : Q
}.

Definition pca_single (start_date end_date : date) (w : pattern_widgets)
    (unit_option : string) : outcome single_result :=
  '(selected_counts, weekday_hours) ← single_pattern_ui start_date end_date w;
  let total_calendar_days := days_between end_date start_date + 1 in
  let total_matching_days := sumZ (values selected_counts) in
  terms ← map_outcome
            (fun wd => c ← getitem selected_counts wd;
                       Done (inject_Z c * dict_get weekday_hours wd 0)%Q)
            (keys selected_counts);
  let base_hours := sumQ terms in
  Done {| single_total_calendar_days := total_calendar_days;
          single_total_matching_days := total_matching_days;
          single_base_hours := base_hours;
          single_final_total :=
            convert_total base_hours total_matching_days unit_option |}.

Record alt_result : Type := {
  total_calendar_days : Z;
  total_days_A : Z;
  total_days_B : Z;
  total_matching_days : Z;
  base_hours_A : Q;
  base_hours_B : Q;
  base_hours_total : Q;
  final_total_A : Q;
  final_total_B : Q;
  final_total : Q
}.

(** [sum(counts[wd] * hours.get(wd, 0.0) for wd in range(7))]. *)
Definition base_hours_of (counts : gmap Z Z) (hours : gmap Z Q) : outcome Q :=
  terms ← map_outcome
            (fun wd => c ← getitem counts wd;
                       Done (inject_Z c * dict_get hours wd 0)%Q)
            (range 7);
  Done (sumQ terms).

Definition pca_alternating (start_date end_date : date)
    (wa wb : pattern_widgets) (unit_option : string) : outcome alt_result :=
  '(counts_AB, hours_AB) ← alternating_pattern_ui start_date end_date wa wb;
  let total_calendar_days := days_between end_date start_date + 1 in
  counts_A ← getitem counts_AB "A";
  counts_B ← getitem counts_AB "B";
  let total_days_A := sumZ (values counts_A) in
  let total_days_B := sumZ (values counts_B) in
  hours_A ← getitem hours_AB "A";
  hours_B ← getitem hours_AB "B";
  base_hours_A ← base_hours_of counts_A hours_A;
  base_hours_B ← base_hours_of counts_B hours_B;
  let final_total_A := convert_total base_hours_A total_days_A unit_option in
  let final_total_B := convert_total base_hours_B total_days_B unit_option in
  Done {| total_calendar_days := total_calendar_days;
          total_days_A := total_days_A;
          total_days_B := total_days_B;
          total_matching_days := total_days_A + total_days_B;
          base_hours_A := base_hours_A;
          base_hours_B := base_hours_B;
          base_hours_total := (base_hours_A + base_hours_B)%Q;
          final_total_A := final_total_A;
          final_total_B := final_total_B;
          final_total := (final_total_A + final_total_B)%Q |}.

(** The whole script: the inputs of one run and what it computes. *)
Record inputs : Type := {
  start_date : date;
  end_date : date;
  cdpas_mode : bool;
  use_alt_weeks : bool;
  single_widgets : pattern_widgets;
  week_A_widgets : pattern_widgets;
  week_B_widgets : pattern_widgets;
  unit_option : string;
  hours_per_week : Q
}.

Inductive result : Type :=
| ResultCDPAS (r : cdpas_result)
| ResultSingle (r : single_result)
| ResultAlternating (r : alt_result).

Definition app (inp : inputs) : outcome result :=
  if end_date inp <? start_date inp
  then Stopped "'From date' must be on or before 'To date'."
  else if cdpas_mode inp
  then Done (ResultCDPAS (cdpas (start_date inp) (end_date inp) (hours_per_week inp)))
  else if negb (use_alt_weeks inp)
  then r ← pca_single (start_date inp) (end_date inp)
             (single_widgets inp) (unit_option inp);
       Done (ResultSingle r)
  else r ← pca_alternating (start_date inp) (end_date inp)
             (week_A_widgets inp) (week_B_widgets inp) (unit_option inp);
       Done (ResultAlternating r).

(** ** Display: the metric label and the breakdown tables *)

Definition weekday_labels : list string :=
  ["Mon"; "Tue"; "Wed"; "Thu"; "Fri"; "Sat"; "Sun"].

(** [l[i]] on a list: a negative index counts from the end, an index out of
    range raises [IndexError]. *)
Definition list_getitem {A : Type} (l : list A) (i : Z) : outcome A :=
  let n := Z.of_nat (length l) in
  let j := if i <? 0 then i + n else i in
  if (0 <=? j) && (j <? n) then
    match l !! Z.to_nat j with
    | Some x => Done x
    | None => Raised "IndexError"
    end
  else Raised "IndexError".

(** The label of the last metric: a dict literal subscripted by the unit. *)
Definition metric_labels : gmap string string :=
  {[ "Hourly" := "Total hours";
     "15 mins" := "Total 15-min units";
     "Per diem" := "Total per-diems (days)" ]}.

Definition metric_label (unit_option : string) : outcome string :=
  getitem metric_labels unit_option.

(** [sorted(xs)] on integers. *)
Definition sorted (xs : list Z) : list Z := merge_sort Z.le xs.

(** A row of a breakdown table; [row_pattern] is the "Pattern" column of the
    alternating table. *)
Record row : Type := {
  row_pattern : option string;
  row_weekday : string;
  row_count : Z;
  row_hours_per_day : Q;
  row_converted : Q
}.

(** "Breakdown by weekday" of the single pattern. *)
Definition single_breakdown (selected_counts : gmap Z Z)
    (weekday_hours : gmap Z Q) (unit_option : string) : outcome (list row) :=
  map_outcome
    (fun wd =>
       day_count ← getitem selected_counts wd;
       let base := (inject_Z day_count * dict_get weekday_hours wd 0)%Q in
       let converted := convert_total base day_count unit_option in
       label ← list_getitem weekday_labels wd;
       Done {| row_pattern := None;
               row_weekday := label;
               row_count := day_count;
               row_hours_per_day := dict_get weekday_hours wd 0%Q;
               row_converted := converted |})
    (sorted (keys selected_counts)).

(** The row filter of the alternating table:
    [(df["Count in range"] > 0) | (df["Converted total"] > 0)]. *)
Definition row_shown (r : row) : bool :=
  (0 <? row_count r) || negb (Qle_bool (row_converted r) 0).

(** "Breakdown by pattern and weekday" of the alternating pattern. *)
Definition alternating_breakdown (counts_AB : gmap string (gmap Z Z))
    (hours_AB : gmap string (gmap Z Q)) (unit_option : string)
  : outcome (list row) :=
  rows ← map_outcome
           (fun bw : string * Z =>
              let bucket := bw.1 in
              let wd := bw.2 in
              counts ← getitem counts_AB bucket;
              day_count ← getitem counts wd;
              hours ← getitem hours_AB bucket;
              let base := (inject_Z day_count * dict_get hours wd 0)%Q in
              let converted := convert_total base day_count unit_option in
              label ← list_getitem weekday_labels wd;
              Done {| row_pattern := Some ("Week " ++ bucket)%string;
                      row_weekday := label;
                      row_count := day_count;
                      row_hours_per_day := dict_get hours wd 0%Q;
                      row_converted := converted |})
           (bucket ← ["A"; "B"]; wd ← range 7; [(bucket, wd)]);
  Done (List.filter row_shown rows).

(** What one run of the script shows. *)
Inductive page : Type :=
| PageCDPAS (r : cdpas_result)
| PageSingle (r : single_result) (label : string) (rows : list row)
| PageAlternating (r : alt_result) (label : string) (rows : list row).

Definition single_page (start_date end_date : date) (w : pattern_widgets)
    (unit_option : string) : outcome page :=
  '(selected_counts, weekday_hours) ← single_pattern_ui start_date end_date w;
  r ← pca_single start_date end_date w unit_option;
  label ← metric_label unit_option;
  rows ← single_breakdown selected_counts weekday_hours unit_option;
  Done (PageSingle r label rows).

Definition alternating_page (start_date end_date : date)
    (wa wb : pattern_widgets) (unit_option : string) : outcome page :=
  '(counts_AB, hours_AB) ← alternating_pattern_ui start_date end_date wa wb;
  r ← pca_alternating start_date end_date wa wb unit_option;
  label ← metric_label unit_option;
  rows ← alternating_breakdown counts_AB hours_AB unit_option;
  Done (PageAlternating r label rows).


(** The limits of the number inputs of a pattern: 0.0 to 24.0 hours. *)
Definition hours_in_range (w : pattern_widgets) : Prop :=
  (0 <= hrs w <= 24)%Q /\ forall i, (0 <= hrs_day w i <= 24)%Q.

(** ** Reference definitions of the specification *)

(** The days of the inclusive span, [iter_days()] of the spec's DateSpan. *)
Definition iter_days (start end_ : date) : list date :=
  seqZ start (days_between end_ start + 1).

(** Naive day-by-day counting: the days of [days] that fall on weekday [w]. *)
Definition naive_count (days : list date) (w : Z) : Z :=
  Z.of_nat (length (filter (fun d => weekday d = w) days)).

(** The days of [days] that the anchor-parity rule puts in [bucket]. *)
Definition days_of_bucket (anchor_monday : date) (bucket : string)
    (days : list date) : list date :=
  filter (fun d => bucket_of anchor_monday d = bucket) days.

(** The days of [days] whose weekday is ticked in [w]. *)
Definition ticked_days (w : pattern_widgets) (days : list date) : list date :=
  filter (fun d => chk w (weekday d) = true) days.

(** The spec's UnitConverter: the three units and a failure for any other
    name. *)
Inductive ConversionUnit : Type := Hourly | QuarterHour | PerDiem.

Definition unit_of_name (unit : string) : option ConversionUnit :=
  if String.eqb unit "Hourly" then Some Hourly
  else if String.eqb unit "15 mins" then Some QuarterHour
  else if String.eqb unit "Per diem" then Some PerDiem
  else None.

Definition spec_convert (base_hours : Q) (day_count : Z) (unit : string)
  : outcome Q :=
  match unit_of_name unit with
  | Some Hourly => Done base_hours
  | Some QuarterHour => Done (base_hours * 4)%Q
  | Some PerDiem => Done (inject_Z day_count)
  | None => Raised "UnknownUnitError"
  end.

(** Inputs used in examples: Monday to Friday at [h] hours, Monday to
    Wednesday at [h] hours, every weekday at [h] hours. *)
Definition first_days (n : Z) (h : Q) : pattern_widgets :=
  {| chk := fun i => i <? n; same_hours := true; hrs := h;
     hrs_day := fun i => if i <? 5 then 8%Q else 0%Q |}.

(** ** Auxiliary definitions used in the statements *)

(** A function on weekdays changed at one weekday. *)
Definition upd {V : Type} (f : Z -> V) (i : Z) (x : V) : Z -> V :=
  fun j => if j =? i then x else f j.

(** The hours a pattern's widgets give for weekday [i]. *)
Definition hours_entry (w : pattern_widgets) (i : Z) : Q :=
  if same_hours w then hrs w else hrs_day w i.

(** The outer dict [{"A": a, "B": b}]. *)
Definition by_bucket {V : Type} (a b : V) : gmap string V :=
  {[ "A" := a; "B" := b ]}.

(** Counts and hours of one bucket after the selection is applied. *)
Definition gated_count (w : pattern_widgets) (count : Z -> Z) (i : Z) : Z :=
  if chk w i then count i else 0.

Definition gated_hours (w : pattern_widgets) (i : Z) : Q :=
  if chk w i then hours_entry w i else 0%Q.

Definition gated_term (w : pattern_widgets) (count : Z -> Z) (i : Z) : Q :=
  (inject_Z (gated_count w count i) * gated_hours w i)%Q.

(** One round of "zero out days not selected", as a change of a function
    on weekdays, and the whole loop over [l]. *)
Definition zero_step {V : Type} (sel : gset Z) (x : Z) (z : V) (f : Z -> V)
  : Z -> V :=
  if decide (x ∈ sel) then f else upd f x z.

Definition zeroed {V : Type} (sel : gset Z) (l : list Z) (z : V) (f : Z -> V)
  : Z -> V :=
  fun i => if decide (i ∈ l /\ i ∉ sel) then z else f i.

(** The widgets [w] with another value in the hours input of weekday [i]. *)
Definition with_hours_day (w : pattern_widgets) (i : Z) (h : Q) : pattern_widgets :=
  {| chk := chk w; same_hours := same_hours w; hrs := hrs w;
     hrs_day := upd (hrs_day w) i h |}.

(** The first [n] weekdays ticked, with one hours input per weekday. *)
Definition each_day (n : Z) (g : Z -> Q) : pattern_widgets :=
  {| chk := fun i => i <? n; same_hours := false; hrs := 8%Q; hrs_day := g |}.

(** The label of weekday [i], and the rows the two breakdown tables hold for
    weekday [i]. *)
Definition weekday_label (i : Z) : string :=
  default "" (weekday_labels !! Z.to_nat i).

Definition single_row (start end_ : date) (w : pattern_widgets) (unit : string)
    (i : Z) : row :=
  {| row_pattern := None;
     row_weekday := weekday_label i;
     row_count := count_weekday start end_ i;
     row_hours_per_day := hours_entry w i;
     row_converted :=
       convert_total (inject_Z (count_weekday start end_ i) * hours_entry w i)
         (count_weekday start end_ i) unit |}.


(** * Properties *)

(** ** Sums *)

Lemma fold_left_add_init (xs : list Z) (a : Z) :
  fold_left Z.add xs a = a + sumZ xs.
Proof.
  unfold sumZ. revert a. induction xs as [|x xs IH]; intros a; simpl; [lia|].
  rewrite (IH (a + x)), (IH (0 + x)). lia.
Qed.

Lemma sumZ_cons (x : Z) (xs : list Z) : sumZ (x :: xs) = x + sumZ xs.
Proof. unfold sumZ at 1. simpl. rewrite fold_left_add_init. lia. Qed.


Lemma sumZ_perm (xs ys : list Z) : xs ≡ₚ ys -> sumZ xs = sumZ ys.
Proof.
  induction 1 as [|x xs ys _ IH|x y xs|xs ys zs _ IH1 _ IH2];
    rewrite ?sumZ_cons; lia.
Qed.

Lemma fold_left_Qplus_init (xs : list Q) (a : Q) :
  (fold_left Qplus xs a == a + sumQ xs)%Q.
Proof.
  unfold sumQ. revert a. induction xs as [|x xs IH]; intros a; simpl.
  - ring.
  - rewrite (IH (a + x)%Q), (IH (0 + x)%Q). ring.
Qed.

Lemma sumQ_cons (x : Q) (xs : list Q) : (sumQ (x :: xs) == x + sumQ xs)%Q.
Proof. unfold sumQ at 1. simpl. rewrite fold_left_Qplus_init. ring. Qed.

Lemma sumQ_perm (xs ys : list Q) : xs ≡ₚ ys -> (sumQ xs == sumQ ys)%Q.
Proof.
  induction 1 as [|x xs ys _ IH|x y xs|xs ys zs _ IH1 _ IH2];
    rewrite ?sumQ_cons.
  - reflexivity.
  - rewrite IH. reflexivity.
  - ring.
  - rewrite IH1. exact IH2.
Qed.

(** Counting with a running counter is the number of hits. *)
Lemma fold_left_count (P : Z -> bool) (l : list Z) (c : Z) :
  fold_left (fun count i => if P i then count + 1 else count) l c
  = c + Z.of_nat (length (filter (fun i => P i = true) l)).
Proof.
  revert c. induction l as [|x l IH]; intros c; simpl; [lia|].
  rewrite IH, filter_cons. destruct (P x) eqn:E.
  - rewrite decide_True by reflexivity. simpl. lia.
  - rewrite decide_False by discriminate. lia.
Qed.

(** The sum over the weekdays of the per-weekday counts of a list of days is
    its length. *)
Lemma weekday_range (d : date) : 0 <= weekday d < 7.
Proof. unfold weekday. apply Z.mod_pos_bound. lia. Qed.

Lemma naive_count_nil (w : Z) : naive_count [] w = 0.
Proof. reflexivity. Qed.

Lemma naive_count_cons (d : date) (days : list date) (w : Z) :
  naive_count (d :: days) w
  = (if weekday d =? w then 1 else 0) + naive_count days w.
Proof.
  unfold naive_count. rewrite filter_cons.
  destruct (Z.eqb_spec (weekday d) w).
  - rewrite decide_True by assumption. simpl length. lia.
  - rewrite decide_False by assumption. lia.
Qed.

Lemma naive_count_app (l1 l2 : list date) (w : Z) :
  naive_count (l1 ++ l2) w = naive_count l1 w + naive_count l2 w.
Proof.
  unfold naive_count. rewrite filter_app, length_app. lia.
Qed.

Lemma sumZ_fmap_add {A : Type} (f g : A -> Z) (l : list A) :
  sumZ ((fun x => f x + g x) <$> l) = sumZ (f <$> l) + sumZ (g <$> l).
Proof.
  induction l as [|x l IH]; [reflexivity|].
  rewrite !fmap_cons, !sumZ_cons, IH. lia.
Qed.

Lemma sumZ_fmap_zero {A : Type} (l : list A) : sumZ ((fun _ => 0) <$> l) = 0.
Proof.
  induction l as [|x l IH]; [reflexivity|]. rewrite fmap_cons, sumZ_cons, IH. lia.
Qed.

Lemma sumZ_fmap_ext {A : Type} (f g : A -> Z) (l : list A) :
  (forall x, x ∈ l -> f x = g x) -> sumZ (f <$> l) = sumZ (g <$> l).
Proof.
  induction l as [|x l IH]; intros E; [reflexivity|].
  rewrite !fmap_cons, !sumZ_cons, E, IH; [reflexivity| |left].
  intros y Hy. apply E. right. exact Hy.
Qed.

Lemma sumZ_indicator (k : Z) :
  0 <= k < 7 -> sumZ ((fun w => if k =? w then 1 else 0) <$> range 7) = 1.
Proof.
  intros Hk.
  assert (k = 0 \/ k = 1 \/ k = 2 \/ k = 3 \/ k = 4 \/ k = 5 \/ k = 6) as H by lia.
  destruct H as [->|[->|[->|[->|[->|[->| ->]]]]]]; reflexivity.
Qed.

Lemma sumZ_naive_count (days : list date) :
  sumZ (naive_count days <$> range 7) = Z.of_nat (length days).
Proof.
  induction days as [|d days IH].
  - reflexivity.
  - rewrite (sumZ_fmap_ext _
      (fun w => (if weekday d =? w then 1 else 0) + naive_count days w)).
    + rewrite (sumZ_fmap_add (fun w => if weekday d =? w then 1 else 0)).
      rewrite IH, sumZ_indicator by apply weekday_range.
      simpl length. lia.
    + intros w _. apply naive_count_cons.
Qed.

(** ** The generator [daterange_inclusive] *)

Lemma add_days_one (d : date) :
  0 <= d -> add_days d 1 = if d + 1 <=? MAXORDINAL then Some (d + 1) else None.
Proof.
  intros Hd. unfold add_days. cbv zeta.
  destruct (Z.ltb_spec 0 (d + 1)); [|lia]. reflexivity.
Qed.

Lemma daterange_loop_spec (fuel : nat) (d end_ : date) :
  0 <= d -> end_ <= MAXORDINAL -> d <= end_ + 1 ->
  (Z.to_nat (end_ - d + 1) < fuel)%nat ->
  daterange_loop fuel d end_
  = Some (Generated (seqZ d (end_ - d + 1))
            (if (d <=? end_) && (end_ =? MAXORDINAL)
             then Some "OverflowError" else None)).
Proof.
  revert d. induction fuel as [|fuel IH]; intros d Hd He Hde Hf; [lia|].
  simpl daterange_loop. destruct (Z.leb_spec d end_) as [Hle|Hgt].
  - rewrite add_days_one by assumption.
    rewrite (seqZ_cons d) by lia.
    destruct (Z.leb_spec (d + 1) MAXORDINAL) as [Hm|Hm].
    + rewrite IH by lia. simpl.
      replace (Z.succ d) with (d + 1) by lia.
      replace (Z.pred (end_ - d + 1)) with (end_ - (d + 1) + 1) by lia.
      do 2 f_equal.
      destruct (Z.leb_spec (d + 1) end_), (Z.eqb_spec end_ MAXORDINAL);
        simpl; try reflexivity; lia.
    + assert (end_ = d) as -> by lia.
      rewrite seqZ_nil by lia.
      destruct (Z.eqb_spec d MAXORDINAL); [reflexivity|lia].
  - rewrite seqZ_nil by lia. reflexivity.
Qed.

(** On dates before [date.max] the generator yields the days of the span and
    returns. *)
Lemma daterange_inclusive_spec (start end_ : date) :
  valid start -> start <= end_ -> end_ < MAXORDINAL ->
  daterange_inclusive start end_ = Some (Generated (iter_days start end_) None).
Proof.
  unfold valid. intros Hs Hle He. unfold daterange_inclusive, daterange_fuel.
  rewrite daterange_loop_spec by lia.
  destruct (Z.eqb_spec end_ MAXORDINAL); [lia|].
  rewrite andb_false_r. reflexivity.
Qed.

(** Up to [date.max] it still yields every day of the span; the request for
    the day after [date.max] raises [OverflowError]. *)
Lemma daterange_inclusive_yields (start end_ : date) :
  valid start -> valid end_ -> start <= end_ ->
  exists g, daterange_inclusive start end_ = Some g
            /\ yields g = iter_days start end_
            /\ finish g = if end_ =? MAXORDINAL then Some "OverflowError" else None.
Proof.
  unfold valid. intros Hs He Hle. unfold daterange_inclusive, daterange_fuel.
  rewrite daterange_loop_spec by lia.
  eexists. split; [reflexivity|]. simpl. split; [reflexivity|].
  destruct (Z.leb_spec start end_); [reflexivity|lia].
Qed.

(** The model never runs out of fuel, whatever the two ordinals. *)
Lemma daterange_loop_total (fuel : nat) (d end_ : date) :
  (Z.to_nat (end_ - d + 1) < fuel)%nat -> is_Some (daterange_loop fuel d end_).
Proof.
  revert d. induction fuel as [|fuel IH]; intros d Hf; [lia|].
  simpl. destruct (Z.leb_spec d end_) as [Hle|Hgt]; [|eexists; reflexivity].
  unfold add_days. cbv zeta.
  destruct ((0 <? d + 1) && (d + 1 <=? MAXORDINAL)); [|eexists; reflexivity].
  destruct (IH (d + 1)) as [g Hg]; [lia|]. rewrite Hg. eexists. reflexivity.
Qed.

Lemma daterange_inclusive_total (start end_ : date) :
  is_Some (daterange_inclusive start end_).
Proof. apply daterange_loop_total. unfold daterange_fuel. lia. Qed.

(** ** Closed-form weekday counts *)

(** Among [n] consecutive integers from [m], those in one residue class. *)
Lemma count_residue (P : Z -> Prop) `{!forall x, Decision (P x)} (m s w : Z) (n : nat) :
  0 <= w < 7 ->
  (forall d, P d <-> (s + (d - m)) mod 7 = w) ->
  Z.of_nat (length (filter P (seqZ m (Z.of_nat n))))
  = (Z.of_nat n + 6 - (w - s) mod 7) / 7.
Proof.
  intros Hw HP. induction n as [|n IH].
  - simpl. Z.div_mod_to_equations. lia.
  - rewrite seqZ_S, filter_app, length_app, Nat2Z.inj_add, IH.
    rewrite filter_cons, filter_nil.
    destruct (decide (P (m + Z.of_nat n))) as [Hp|Hp];
      rewrite HP in Hp; replace (m + Z.of_nat n - m) with (Z.of_nat n) in Hp by lia;
      simpl length; Z.div_mod_to_equations; lia.
Qed.

Lemma count_weekday_closed (start end_ : date) (w : Z) :
  start <= end_ + 1 -> 0 <= w < 7 ->
  count_weekday start end_ w
  = (count_total_days start end_ + 6 - (w - weekday start) mod 7) / 7.
Proof.
  intros Hle Hw. unfold count_weekday. cbv zeta.
  set (total := count_total_days start end_).
  assert (0 <= total) as Ht by (unfold total, count_total_days, days_between; lia).
  rewrite (fold_left_count (fun i => (weekday start + i) mod 7 =? w)).
  unfold range.
  assert (0 <= total mod 7 < 7) as Hr by (apply Z.mod_pos_bound; lia).
  rewrite <- (Z2Nat.id (total mod 7)) at 1 by lia.
  rewrite (count_residue _ 0 (weekday start) w) by
    (try assumption; intros d; rewrite Z.eqb_eq, Z.sub_0_r; reflexivity).
  rewrite Z2Nat.id by lia.
  Z.div_mod_to_equations. lia.
Qed.

Lemma naive_count_iter_days (start end_ : date) (w : Z) :
  start <= end_ + 1 -> 0 <= w < 7 ->
  naive_count (iter_days start end_) w
  = (count_total_days start end_ + 6 - (w - weekday start) mod 7) / 7.
Proof.
  intros Hle Hw. unfold naive_count, iter_days.
  fold (count_total_days start end_).
  set (total := count_total_days start end_).
  assert (0 <= total) as Ht by (unfold total, count_total_days, days_between; lia).
  rewrite <- (Z2Nat.id total) at 1 by lia.
  rewrite (count_residue _ start (start + 6) w); try assumption.
  - rewrite Z2Nat.id by lia. unfold weekday. Z.div_mod_to_equations. lia.
  - intros d. unfold weekday. replace (start + 6 + (d - start)) with (d + 6) by lia.
    reflexivity.
Qed.

Lemma count_weekday_naive (start end_ : date) (w : Z) :
  start <= end_ + 1 -> 0 <= w < 7 ->
  count_weekday start end_ w = naive_count (iter_days start end_) w.
Proof.
  intros. rewrite count_weekday_closed, naive_count_iter_days by assumption.
  reflexivity.
Qed.

Lemma length_iter_days (start end_ : date) :
  start <= end_ + 1 ->
  Z.of_nat (length (iter_days start end_)) = count_total_days start end_.
Proof.
  intros. unfold iter_days, count_total_days, days_between.
  rewrite length_seqZ. lia.
Qed.

(** C1. For every valid span and every weekday [w] in 0..6, the closed-form
    count of [count_weekday] equals the count obtained by enumerating the
    span day by day with [daterange_inclusive] and counting the days whose
    weekday is [w]. *)
Theorem count_weekday_equals_enumeration (start end_ : date) (w : Z) :
  valid start -> valid end_ -> start <= end_ -> 0 <= w < 7 ->
  exists g, daterange_inclusive start end_ = Some g
            /\ yields g = iter_days start end_
            /\ count_weekday start end_ w = naive_count (yields g) w.
Proof.
  intros Hs He Hle Hw.
  destruct (daterange_inclusive_yields start end_ Hs He Hle) as (g & Hg & Hy & _).
  exists g. split; [exact Hg|]. split; [exact Hy|].
  rewrite Hy. apply count_weekday_naive; [lia|exact Hw].
Qed.

Lemma count_weekday_equals_enumeration_witness :
  exists g, daterange_inclusive (ymd 2024 1 29) (ymd 2025 3 4) = Some g
            /\ yields g = iter_days (ymd 2024 1 29) (ymd 2025 3 4)
            /\ count_weekday (ymd 2024 1 29) (ymd 2025 3 4) 1 = naive_count (yields g) 1.
Proof.
  apply (count_weekday_equals_enumeration (ymd 2024 1 29) (ymd 2025 3 4) 1);
    unfold valid; vm_compute; repeat split; discriminate.
Defined.

(** C6. For every valid span the flat weekday counts of the seven weekdays
    add up to the number of calendar days, [(end - start).days + 1]. *)
Theorem flat_counts_sum_to_total_days (start end_ : date) :
  start <= end_ ->
  sumZ (count_weekday start end_ <$> range 7) = count_total_days start end_
  /\ count_total_days start end_ = days_between end_ start + 1.
Proof.
  intros Hle. split; [|reflexivity].
  rewrite (sumZ_fmap_ext _ (naive_count (iter_days start end_))).
  - rewrite sumZ_naive_count. apply length_iter_days. lia.
  - intros w Hw. apply elem_of_seqZ in Hw.
    apply count_weekday_naive; lia.
Qed.

Lemma flat_counts_sum_to_total_days_witness :
  sumZ (count_weekday (ymd 2024 2 27) (ymd 2024 3 9) <$> range 7)
  = count_total_days (ymd 2024 2 27) (ymd 2024 3 9)
  /\ count_total_days (ymd 2024 2 27) (ymd 2024 3 9)
     = days_between (ymd 2024 3 9) (ymd 2024 2 27) + 1.
Proof.
  apply (flat_counts_sum_to_total_days (ymd 2024 2 27) (ymd 2024 3 9)).
  vm_compute. discriminate.
Defined.

(** ** Dicts over the seven weekdays *)

Lemma lookup_dict7 {V : Type} (v : Z -> V) (i : Z) :
  dict7 v !! i = if decide (0 <= i < 7) then Some (v i) else None.
Proof.
  unfold dict7. destruct (decide (0 <= i < 7)) as [Hi|Hi].
  - apply elem_of_list_to_map_1.
    + rewrite <- list_fmap_compose. apply NoDup_fmap_2_strong; [|apply NoDup_seqZ].
      intros x y _ _ E. exact E.
    + apply list_elem_of_fmap. exists i. split; [reflexivity|].
      apply elem_of_seqZ. lia.
  - apply not_elem_of_list_to_map_1. rewrite <- list_fmap_compose.
    intros Hin. apply list_elem_of_fmap in Hin as (j & -> & Hj).
    apply elem_of_seqZ in Hj. simpl in Hi. lia.
Qed.

Lemma dict7_ext {V : Type} (f g : Z -> V) :
  (forall i, 0 <= i < 7 -> f i = g i) -> dict7 f = dict7 g.
Proof.
  intros E. apply map_eq. intros i. rewrite !lookup_dict7.
  destruct (decide (0 <= i < 7)); [|reflexivity]. rewrite E by assumption.
  reflexivity.
Qed.

Lemma insert_dict7 {V : Type} (f : Z -> V) (i : Z) (x : V) :
  0 <= i < 7 -> <[i := x]> (dict7 f) = dict7 (upd f i x).
Proof.
  intros Hi. apply map_eq. intros j. rewrite lookup_insert, !lookup_dict7.
  unfold upd. destruct (decide (i = j)) as [<-|Hne].
  - rewrite decide_True by assumption. rewrite Z.eqb_refl. reflexivity.
  - destruct (Z.eqb_spec j i); [congruence|reflexivity].
Qed.

Lemma values_dict7 {V : Type} (v : Z -> V) : values (dict7 v) ≡ₚ v <$> range 7.
Proof.
  unfold values, dict7. rewrite map_to_list_to_map.
  - rewrite <- list_fmap_compose. reflexivity.
  - rewrite <- list_fmap_compose. apply NoDup_fmap_2_strong; [|apply NoDup_seqZ].
    intros x y _ _ E. exact E.
Qed.

Lemma getitem_dict7 {V : Type} (v : Z -> V) (i : Z) :
  0 <= i < 7 -> getitem (dict7 v) i = Done (v i).
Proof.
  intros Hi. unfold getitem. rewrite lookup_dict7, decide_True by assumption.
  reflexivity.
Qed.

Lemma dict_get_dict7 {V : Type} (v : Z -> V) (i : Z) (dflt : V) :
  0 <= i < 7 -> dict_get (dict7 v) i dflt = v i.
Proof.
  intros Hi. unfold dict_get. rewrite lookup_dict7, decide_True by assumption.
  reflexivity.
Qed.

(** ** The weekday selection of a pattern *)

Lemma enumerate_checks (w : pattern_widgets) :
  enumerate (checks_of w) = (fun i => (i, chk w i)) <$> range 7.
Proof. reflexivity. Qed.

Lemma filter_ticked (f : Z -> bool) (l : list Z) :
  (filter (fun iv : Z * bool => iv.2 = true) ((fun i => (i, f i)) <$> l)).*1
  = filter (fun i => f i = true) l.
Proof.
  induction l as [|x l IH]; [reflexivity|].
  rewrite fmap_cons, !filter_cons. simpl.
  destruct (f x) eqn:E.
  - rewrite !decide_True by reflexivity. rewrite fmap_cons, IH. reflexivity.
  - rewrite !decide_False by discriminate. exact IH.
Qed.

Lemma selected_of_checks (w : pattern_widgets) :
  selected_of (checks_of w)
  = list_to_set (filter (fun i => chk w i = true) (range 7)).
Proof. unfold selected_of. rewrite enumerate_checks, filter_ticked. reflexivity. Qed.

Lemma elem_of_selected (w : pattern_widgets) (i : Z) :
  i ∈ selected_of (checks_of w) <-> 0 <= i < 7 /\ chk w i = true.
Proof.
  rewrite selected_of_checks, elem_of_list_to_set, list_elem_of_filter.
  unfold range. rewrite elem_of_seqZ. split; intros [? ?]; split; (lia || assumption).
Qed.

Lemma elements_selected (w : pattern_widgets) :
  elements (selected_of (checks_of w))
  ≡ₚ filter (fun i => chk w i = true) (range 7).
Proof.
  rewrite selected_of_checks. apply elements_list_to_set.
  apply NoDup_filter, NoDup_seqZ.
Qed.

(** ** The hours dict of a pattern *)

Lemma lookup_fold_insert_const (h : Q) (l : list Z) (m : gmap Z Q) (i : Z) :
  fold_left (fun d wd => <[wd := h]> d) l m !! i
  = if decide (i ∈ l) then Some h else m !! i.
Proof.
  revert m. induction l as [|x l IH]; intros m; cbn [fold_left].
  - rewrite decide_False by apply not_elem_of_nil. reflexivity.
  - rewrite IH. destruct (decide (i ∈ l)) as [Hin|Hin].
    + rewrite decide_True by (right; exact Hin). reflexivity.
    + destruct (decide (x = i)) as [->|Hne].
      * rewrite decide_True by left. apply lookup_insert_eq.
      * rewrite decide_False by (rewrite elem_of_cons; intros [?|?]; congruence).
        apply lookup_insert_ne. exact Hne.
Qed.

Lemma lookup_fold_insert_each (g : Z -> Q) (sel : gset Z) (l : list Z)
    (m : gmap Z Q) (i : Z) :
  fold_left (fun d j => if decide (j ∈ sel) then <[j := g j]> d else d) l m !! i
  = if decide (i ∈ l /\ i ∈ sel) then Some (g i) else m !! i.
Proof.
  revert m. induction l as [|x l IH]; intros m; cbn [fold_left].
  - rewrite decide_False; [reflexivity|]. intros [H _]. inversion H.
  - rewrite IH. destruct (decide (i ∈ l /\ i ∈ sel)) as [[Hl Hs]|Hn].
    + rewrite decide_True; [reflexivity|]. split; [right|]; assumption.
    + destruct (decide (x ∈ sel)) as [Hx|Hx].
      * destruct (decide (x = i)) as [->|Hne].
        -- rewrite decide_True by (split; [left|assumption]).
           apply lookup_insert_eq.
        -- rewrite lookup_insert_ne by exact Hne.
           rewrite decide_False; [reflexivity|].
           rewrite elem_of_cons. intros [[?|?] ?]; [congruence|tauto].
      * rewrite decide_False; [reflexivity|].
        rewrite elem_of_cons. intros [[?|?] ?]; [congruence|tauto].
Qed.

Lemma lookup_hours_of (w : pattern_widgets) (i : Z) :
  hours_of w (selected_of (checks_of w)) !! i
  = if chk w i && bool_decide (0 <= i < 7) then Some (hours_entry w i) else None.
Proof.
  unfold hours_of, hours_entry. set (sel := selected_of (checks_of w)).
  assert (i ∈ sel <-> 0 <= i < 7 /\ chk w i = true) as Hsel
    by apply elem_of_selected.
  destruct (same_hours w).
  - rewrite lookup_fold_insert_const, lookup_empty.
    destruct (decide (i ∈ elements sel)) as [Hin|Hin];
      rewrite elem_of_elements, Hsel in Hin.
    + destruct Hin as [Hr ->]. rewrite bool_decide_true by exact Hr. reflexivity.
    + destruct (chk w i); [|reflexivity].
      rewrite bool_decide_false by tauto. reflexivity.
  - rewrite lookup_fold_insert_each, lookup_empty.
    destruct (decide (i ∈ range 7 /\ i ∈ sel)) as [[_ Hin]|Hin].
    + apply Hsel in Hin as [Hr ->]. rewrite bool_decide_true by exact Hr.
      reflexivity.
    + destruct (chk w i); [|reflexivity].
      destruct (bool_decide_reflect (0 <= i < 7)) as [Hr|Hr]; [|reflexivity].
      exfalso. apply Hin. split; [apply elem_of_seqZ; lia|].
      apply Hsel. split; [exact Hr|reflexivity].
Qed.

Lemma dict_get_hours_of (w : pattern_widgets) (i : Z) :
  0 <= i < 7 ->
  dict_get (hours_of w (selected_of (checks_of w))) i 0%Q = gated_hours w i.
Proof.
  intros Hi. unfold dict_get, gated_hours. rewrite lookup_hours_of.
  rewrite bool_decide_true by exact Hi. destruct (chk w i); reflexivity.
Qed.

(** ** Loops that cannot raise *)

Lemma map_outcome_Done {A B : Type} (f : A -> outcome B) (g : A -> B) (l : list A) :
  (forall x, x ∈ l -> f x = Done (g x)) -> map_outcome f l = Done (g <$> l).
Proof.
  induction l as [|x l IH]; intros E; [reflexivity|].
  simpl. rewrite E by left. simpl. rewrite IH.
  - reflexivity.
  - intros y Hy. apply E. right. exact Hy.
Qed.

Lemma sumZ_filter (f : Z -> Z) (c : Z -> bool) (l : list Z) :
  sumZ (f <$> filter (fun i => c i = true) l)
  = sumZ ((fun i => if c i then f i else 0) <$> l).
Proof.
  induction l as [|x l IH]; [reflexivity|].
  rewrite filter_cons, fmap_cons, sumZ_cons. destruct (c x).
  - rewrite decide_True by reflexivity. rewrite fmap_cons, sumZ_cons, IH. reflexivity.
  - rewrite decide_False by discriminate. rewrite IH. lia.
Qed.

Lemma sumQ_filter (f : Z -> Q) (c : Z -> bool) (l : list Z) :
  (sumQ (f <$> filter (fun i => c i = true) l)
   == sumQ ((fun i => if c i then f i else 0) <$> l))%Q.
Proof.
  induction l as [|x l IH]; [reflexivity|].
  rewrite filter_cons, fmap_cons, sumQ_cons. destruct (c x).
  - rewrite decide_True by reflexivity. rewrite fmap_cons, sumQ_cons, IH. reflexivity.
  - rewrite decide_False by discriminate. rewrite IH. ring.
Qed.

Lemma sumQ_fmap_ext {A : Type} (f g : A -> Q) (l : list A) :
  (forall x, x ∈ l -> (f x == g x)%Q) -> (sumQ (f <$> l) == sumQ (g <$> l))%Q.
Proof.
  induction l as [|x l IH]; intros E; [reflexivity|].
  rewrite !fmap_cons, !sumQ_cons, E, IH; [reflexivity| |left].
  intros y Hy. apply E. right. exact Hy.
Qed.

(** ** Single pattern: what the script computes *)

Section SinglePattern.
Variables (start end_ : date) (w : pattern_widgets).

Let sel : gset Z := selected_of (checks_of w).
Let selected_counts : gmap Z Z :=
  list_to_map ((fun wd => (wd, count_weekday start end_ wd)) <$> elements sel).

Lemma selected_counts_items :
  map_to_list selected_counts
  ≡ₚ (fun wd => (wd, count_weekday start end_ wd))
       <$> filter (fun i => chk w i = true) (range 7).
Proof.
  unfold selected_counts. rewrite map_to_list_to_map.
  - unfold sel. rewrite elements_selected. reflexivity.
  - rewrite <- list_fmap_compose. apply NoDup_fmap_2_strong; [|apply NoDup_elements].
    intros x y _ _ E. exact E.
Qed.

Lemma lookup_selected_counts (i : Z) :
  selected_counts !! i
  = if chk w i && bool_decide (0 <= i < 7)
    then Some (count_weekday start end_ i) else None.
Proof.
  destruct (chk w i && bool_decide (0 <= i < 7)) eqn:E.
  - apply andb_prop in E as [Hc Hr]. apply bool_decide_eq_true in Hr.
    apply elem_of_map_to_list. rewrite selected_counts_items.
    apply list_elem_of_fmap. exists i. split; [reflexivity|].
    apply list_elem_of_filter. split; [exact Hc|]. apply elem_of_seqZ. lia.
  - apply eq_None_not_Some. intros [v Hv].
    apply elem_of_map_to_list in Hv. rewrite selected_counts_items in Hv.
    apply list_elem_of_fmap in Hv as (j & Hj & Hin). inversion Hj; subst j.
    apply list_elem_of_filter in Hin as [Hc Hr]. apply elem_of_seqZ in Hr.
    rewrite Hc, bool_decide_true in E by lia. discriminate.
Qed.

Lemma pca_single_spec (unit : string) :
  sel <> ∅ ->
  exists r,
    pca_single start end_ w unit = Done r
    /\ single_total_calendar_days r = days_between end_ start + 1
    /\ single_total_matching_days r
       = sumZ (gated_count w (count_weekday start end_) <$> range 7)
    /\ (single_base_hours r
        == sumQ (gated_term w (count_weekday start end_) <$> range 7))%Q
    /\ single_final_total r
       = convert_total (single_base_hours r) (single_total_matching_days r) unit.
Proof.
  intros Hne. unfold pca_single, single_pattern_ui. cbv zeta.
  fold sel. rewrite decide_False by exact Hne.
  fold selected_counts. cbn [mbind outcome_bind].
  set (g := fun wd => (inject_Z (count_weekday start end_ wd)
                       * dict_get (hours_of w sel) wd 0)%Q).
  rewrite (map_outcome_Done _ g).
  2:{ intros wd Hwd. unfold keys in Hwd.
      apply list_elem_of_fmap in Hwd as ([k v] & -> & Hkv).
      pose proof Hkv as Hl. apply elem_of_map_to_list in Hl.
      rewrite selected_counts_items in Hkv.
      apply list_elem_of_fmap in Hkv as (j & Hj & _). inversion Hj; subst.
      unfold getitem. simpl. rewrite Hl. reflexivity. }
  cbn [mbind outcome_bind]. eexists. split; [reflexivity|]. cbn.
  split; [reflexivity|]. split; [|split; [|reflexivity]].
  - rewrite (sumZ_perm (values selected_counts)
               (count_weekday start end_ <$> filter (fun i => chk w i = true) (range 7))).
    + apply (sumZ_filter (count_weekday start end_) (chk w)).
    + unfold values. rewrite selected_counts_items, <- list_fmap_compose.
      reflexivity.
  - rewrite (sumQ_perm (g <$> keys selected_counts)
               (g <$> filter (fun i => chk w i = true) (range 7))).
    + rewrite sumQ_filter. apply sumQ_fmap_ext. intros i Hi.
      apply elem_of_seqZ in Hi. unfold g, gated_term, gated_count.
      unfold sel. rewrite dict_get_hours_of by lia. unfold gated_hours.
      destruct (chk w i); [reflexivity|ring].
    + unfold keys. rewrite selected_counts_items, <- !list_fmap_compose.
      reflexivity.
Qed.

End SinglePattern.

(** ** Alternating weeks: the outer dict and the loops *)

Lemma lookup_by_bucket_A {V : Type} (a b : V) : by_bucket a b !! "A" = Some a.
Proof. unfold by_bucket. apply lookup_insert_eq. Qed.

Lemma lookup_by_bucket_B {V : Type} (a b : V) : by_bucket a b !! "B" = Some b.
Proof.
  unfold by_bucket. rewrite lookup_insert_ne by discriminate.
  apply lookup_singleton_eq.
Qed.

Lemma insert_by_bucket_A {V : Type} (a b a' : V) :
  <["A" := a']> (by_bucket a b) = by_bucket a' b.
Proof. unfold by_bucket. apply insert_insert_eq. Qed.

Lemma insert_by_bucket_B {V : Type} (a b b' : V) :
  <["B" := b']> (by_bucket a b) = by_bucket a b'.
Proof.
  unfold by_bucket. rewrite insert_insert_ne by discriminate.
  rewrite insert_singleton_eq. reflexivity.
Qed.

Lemma setitem2_A {V : Type} (a b : Z -> V) (i : Z) (v : V) :
  0 <= i < 7 ->
  setitem2 (by_bucket (dict7 a) (dict7 b)) "A" i v
  = Done (by_bucket (dict7 (upd a i v)) (dict7 b)).
Proof.
  intros Hi. unfold setitem2, getitem. rewrite lookup_by_bucket_A.
  cbn [mbind outcome_bind]. rewrite insert_by_bucket_A, insert_dict7 by exact Hi.
  reflexivity.
Qed.

Lemma setitem2_B {V : Type} (a b : Z -> V) (i : Z) (v : V) :
  0 <= i < 7 ->
  setitem2 (by_bucket (dict7 a) (dict7 b)) "B" i v
  = Done (by_bucket (dict7 a) (dict7 (upd b i v))).
Proof.
  intros Hi. unfold setitem2, getitem. rewrite lookup_by_bucket_B.
  cbn [mbind outcome_bind]. rewrite insert_by_bucket_B, insert_dict7 by exact Hi.
  reflexivity.
Qed.

Lemma bucket_of_cases (anchor d : date) :
  bucket_of anchor d = "A" \/ bucket_of anchor d = "B".
Proof. unfold bucket_of. destruct (week_index anchor d =? 0); [left|right]; reflexivity. Qed.

(** One round of the counting loop adds one to the day's bucket and
    weekday. *)
Lemma count_day_spec (anchor : date) (a b : Z -> Z) (d : date) :
  count_day anchor (by_bucket (dict7 a) (dict7 b)) d
  = Done (by_bucket
            (dict7 (fun w => a w + naive_count (days_of_bucket anchor "A" [d]) w))
            (dict7 (fun w => b w + naive_count (days_of_bucket anchor "B" [d]) w))).
Proof.
  pose proof (weekday_range d) as Hwd.
  unfold count_day, days_of_bucket. cbv zeta. rewrite !filter_cons, !filter_nil.
  destruct (bucket_of_cases anchor d) as [E|E]; rewrite E.
  - unfold getitem. rewrite lookup_by_bucket_A. cbn [mbind outcome_bind].
    rewrite lookup_dict7, decide_True by exact Hwd. cbn [mbind outcome_bind].
    rewrite insert_by_bucket_A, insert_dict7 by exact Hwd.
    rewrite decide_True by reflexivity. rewrite decide_False by discriminate.
    f_equal. f_equal; apply dict7_ext; intros i _.
    + rewrite naive_count_cons, naive_count_nil. unfold upd.
      destruct (Z.eqb_spec i (weekday d)) as [->|Hne].
      * rewrite Z.eqb_refl. lia.
      * destruct (Z.eqb_spec (weekday d) i); [congruence|lia].
    + rewrite naive_count_nil. lia.
  - unfold getitem. rewrite lookup_by_bucket_B. cbn [mbind outcome_bind].
    rewrite lookup_dict7, decide_True by exact Hwd. cbn [mbind outcome_bind].
    rewrite insert_by_bucket_B, insert_dict7 by exact Hwd.
    rewrite decide_False by discriminate. rewrite decide_True by reflexivity.
    f_equal. f_equal; apply dict7_ext; intros i _.
    + rewrite naive_count_nil. lia.
    + rewrite naive_count_cons, naive_count_nil. unfold upd.
      destruct (Z.eqb_spec i (weekday d)) as [->|Hne].
      * rewrite Z.eqb_refl. lia.
      * destruct (Z.eqb_spec (weekday d) i); [congruence|lia].
Qed.

Lemma days_of_bucket_cons (anchor : date) (bucket : string) (d : date) (days : list date) :
  days_of_bucket anchor bucket (d :: days)
  = (days_of_bucket anchor bucket [d] ++ days_of_bucket anchor bucket days)%list.
Proof. apply (filter_app _ [d] days). Qed.

(** The counting loop: every bucket and weekday is increased by the number
    of days of the list that fall on them. *)
Lemma counting_loop_spec (anchor : date) (days : list date) (a b : Z -> Z) :
  for_each (count_day anchor) days (by_bucket (dict7 a) (dict7 b))
  = Done (by_bucket
            (dict7 (fun w => a w + naive_count (days_of_bucket anchor "A" days) w))
            (dict7 (fun w => b w + naive_count (days_of_bucket anchor "B" days) w))).
Proof.
  revert a b. induction days as [|d days IH]; intros a b.
  - simpl. f_equal. f_equal; apply dict7_ext; intros i _;
      unfold days_of_bucket; rewrite filter_nil, naive_count_nil; lia.
  - cbn [for_each]. rewrite count_day_spec. cbn [mbind outcome_bind].
    rewrite IH. f_equal.
    f_equal; apply dict7_ext; intros i _;
      rewrite (days_of_bucket_cons _ _ d days), naive_count_app; lia.
Qed.

(** The loop that copies the hours of both patterns. *)
Lemma hours_loop_spec (fa fb : Z -> Q) (l : list Z) (a b : Z -> Q) :
  Forall (fun i => 0 <= i < 7) l ->
  for_each
    (fun hours i => hours ← setitem2 hours "A" i (fa i); setitem2 hours "B" i (fb i))
    l (by_bucket (dict7 a) (dict7 b))
  = Done (by_bucket
            (dict7 (fun i => if decide (i ∈ l) then fa i else a i))
            (dict7 (fun i => if decide (i ∈ l) then fb i else b i))).
Proof.
  intros Hl. revert a b. induction Hl as [|x l Hx Hl IH]; intros a b.
  - simpl. f_equal.
  - cbn [for_each]. rewrite setitem2_A by exact Hx. cbn [mbind outcome_bind].
    rewrite setitem2_B by exact Hx. cbn [mbind outcome_bind]. rewrite IH.
    f_equal. f_equal; apply dict7_ext; intros i _; unfold upd;
      destruct (decide (i ∈ l)) as [Hin|Hin].
    + rewrite decide_True by (right; exact Hin). reflexivity.
    + destruct (Z.eqb_spec i x) as [->|Hne].
      * rewrite decide_True by left. reflexivity.
      * rewrite decide_False; [reflexivity|].
        rewrite elem_of_cons. intros [?|?]; [congruence|tauto].
    + rewrite decide_True by (right; exact Hin). reflexivity.
    + destruct (Z.eqb_spec i x) as [->|Hne].
      * rewrite decide_True by left. reflexivity.
      * rewrite decide_False; [reflexivity|].
        rewrite elem_of_cons. intros [?|?]; [congruence|tauto].
Qed.

Lemma zero_out_A (sel : gset Z) (x : Z) (ca cb : Z -> Z) (ha hb : Z -> Q) :
  0 <= x < 7 ->
  zero_out sel "A" x
    (by_bucket (dict7 ca) (dict7 cb), by_bucket (dict7 ha) (dict7 hb))
  = Done (by_bucket (dict7 (zero_step sel x 0 ca)) (dict7 cb),
          by_bucket (dict7 (zero_step sel x 0%Q ha)) (dict7 hb)).
Proof.
  intros Hx. unfold zero_out, zero_step. destruct (decide (x ∈ sel)); [reflexivity|].
  cbn [fst snd]. rewrite setitem2_A by exact Hx. cbn [mbind outcome_bind].
  rewrite setitem2_A by exact Hx. reflexivity.
Qed.

Lemma zero_out_B (sel : gset Z) (x : Z) (ca cb : Z -> Z) (ha hb : Z -> Q) :
  0 <= x < 7 ->
  zero_out sel "B" x
    (by_bucket (dict7 ca) (dict7 cb), by_bucket (dict7 ha) (dict7 hb))
  = Done (by_bucket (dict7 ca) (dict7 (zero_step sel x 0 cb)),
          by_bucket (dict7 ha) (dict7 (zero_step sel x 0%Q hb))).
Proof.
  intros Hx. unfold zero_out, zero_step. destruct (decide (x ∈ sel)); [reflexivity|].
  cbn [fst snd]. rewrite setitem2_B by exact Hx. cbn [mbind outcome_bind].
  rewrite setitem2_B by exact Hx. reflexivity.
Qed.

Lemma zeroed_cons {V : Type} (sel : gset Z) (x : Z) (l : list Z) (z : V)
    (f : Z -> V) (i : Z) :
  zeroed sel l z (zero_step sel x z f) i = zeroed sel (x :: l) z f i.
Proof.
  unfold zeroed, zero_step, upd.
  destruct (decide (i ∈ l /\ i ∉ sel)) as [[Hl Hs]|Hn].
  - rewrite decide_True; [reflexivity|]. split; [right|]; assumption.
  - destruct (decide (x ∈ sel)) as [Hx|Hx].
    + rewrite decide_False; [reflexivity|].
      rewrite elem_of_cons. intros [[->|?] ?]; tauto.
    + destruct (Z.eqb_spec i x) as [->|Hne].
      * rewrite decide_True; [reflexivity|]. split; [left|assumption].
      * rewrite decide_False; [reflexivity|].
        rewrite elem_of_cons. intros [[?|?] ?]; [congruence|tauto].
Qed.

Lemma zero_loop_spec (selA selB : gset Z) (l : list Z) (ca cb : Z -> Z)
    (ha hb : Z -> Q) :
  Forall (fun i => 0 <= i < 7) l ->
  for_each
    (fun st i => st ← zero_out selA "A" i st; zero_out selB "B" i st) l
    (by_bucket (dict7 ca) (dict7 cb), by_bucket (dict7 ha) (dict7 hb))
  = Done (by_bucket (dict7 (zeroed selA l 0 ca)) (dict7 (zeroed selB l 0 cb)),
          by_bucket (dict7 (zeroed selA l 0%Q ha)) (dict7 (zeroed selB l 0%Q hb))).
Proof.
  intros Hl. revert ca cb ha hb. induction Hl as [|x l Hx Hl IH]; intros ca cb ha hb.
  - simpl. do 2 f_equal; f_equal; apply dict7_ext; intros i _; unfold zeroed;
      (rewrite decide_False; [reflexivity|]); intros [H _]; inversion H.
  - cbn [for_each]. rewrite zero_out_A by exact Hx.
    cbn [mbind outcome_bind]. rewrite zero_out_B by exact Hx.
    cbn [mbind outcome_bind]. rewrite IH.
    do 2 f_equal; f_equal; apply dict7_ext; intros i _; apply zeroed_cons.
Qed.

Lemma monday_of_week_spec (d : date) :
  valid d -> monday_of_week d = Done (d - weekday d) /\ valid (d - weekday d).
Proof.
  unfold valid, monday_of_week, sub_days, add_days. intros Hd. cbv zeta.
  assert (1 <= d + - weekday d <= MAXORDINAL) as H.
  { pose proof (weekday_range d). unfold weekday in *.
    Z.div_mod_to_equations. lia. }
  destruct (Z.ltb_spec 0 (d + - weekday d)); [|lia].
  destruct (Z.leb_spec (d + - weekday d) MAXORDINAL); [|lia].
  simpl. replace (d + - weekday d) with (d - weekday d) in * by lia.
  split; [reflexivity|lia].
Qed.

(** ** Alternating weeks: what the script computes *)

Lemma alternating_pattern_ui_spec (start end_ : date) (wa wb : pattern_widgets) :
  valid start -> start <= end_ -> end_ < MAXORDINAL ->
  ~ (selected_of (checks_of wa) = ∅ /\ selected_of (checks_of wb) = ∅) ->
  alternating_pattern_ui start end_ wa wb
  = Done
      (by_bucket
         (dict7 (gated_count wa
                   (naive_count
                      (days_of_bucket (start - weekday start) "A"
                         (iter_days start end_)))))
         (dict7 (gated_count wb
                   (naive_count
                      (days_of_bucket (start - weekday start) "B"
                         (iter_days start end_))))),
       by_bucket (dict7 (gated_hours wa)) (dict7 (gated_hours wb))).
Proof.
  intros Hs Hle He Hsel. unfold alternating_pattern_ui. cbv zeta.
  rewrite decide_False by exact Hsel.
  destruct (monday_of_week_spec start Hs) as [-> _]. cbn [mbind outcome_bind].
  rewrite daterange_inclusive_spec by assumption.
  unfold for_generated. cbn [yields finish].
  change ({[ "A" := dict7 (fun _ : Z => 0); "B" := dict7 (fun _ : Z => 0) ]})
    with (by_bucket (dict7 (fun _ : Z => 0)) (dict7 (fun _ : Z => 0))).
  change ({[ "A" := dict7 (fun _ : Z => 0%Q); "B" := dict7 (fun _ : Z => 0%Q) ]})
    with (by_bucket (dict7 (fun _ : Z => 0%Q)) (dict7 (fun _ : Z => 0%Q))).
  rewrite counting_loop_spec. cbn [mbind outcome_bind].
  assert (Forall (fun i => 0 <= i < 7) (range 7)) as Hr
    by (apply Forall_seqZ; intros; lia).
  rewrite hours_loop_spec by exact Hr. cbn [mbind outcome_bind].
  rewrite zero_loop_spec by exact Hr.
  assert (forall (w : pattern_widgets) (i : Z), 0 <= i < 7 ->
            (i ∈ range 7 /\ i ∉ selected_of (checks_of w)) <-> chk w i = false)
    as Hgate.
  { intros w i Hi. rewrite elem_of_selected. unfold range. rewrite elem_of_seqZ.
    destruct (chk w i); split; intros; try discriminate; try tauto.
    split; [lia|]. intros [_ ?]; discriminate. }
  do 2 f_equal; f_equal; apply dict7_ext; intros i Hi;
    unfold zeroed, gated_count, gated_hours.
  - destruct (decide (i ∈ range 7 /\ i ∉ selected_of (checks_of wa))) as [H|H];
      rewrite Hgate in H by exact Hi.
    + rewrite H. reflexivity.
    + apply not_false_is_true in H. rewrite H. lia.
  - destruct (decide (i ∈ range 7 /\ i ∉ selected_of (checks_of wb))) as [H|H];
      rewrite Hgate in H by exact Hi.
    + rewrite H. reflexivity.
    + apply not_false_is_true in H. rewrite H. lia.
  - destruct (decide (i ∈ range 7 /\ i ∉ selected_of (checks_of wa))) as [H|H];
      rewrite Hgate in H by exact Hi.
    + rewrite H. reflexivity.
    + apply not_false_is_true in H.
      rewrite decide_True by (apply elem_of_seqZ; lia).
      rewrite dict_get_hours_of by exact Hi. reflexivity.
  - destruct (decide (i ∈ range 7 /\ i ∉ selected_of (checks_of wb))) as [H|H];
      rewrite Hgate in H by exact Hi.
    + rewrite H. reflexivity.
    + apply not_false_is_true in H.
      rewrite decide_True by (apply elem_of_seqZ; lia).
      rewrite dict_get_hours_of by exact Hi. reflexivity.
Qed.

Lemma base_hours_of_dict7 (c : Z -> Z) (h : Z -> Q) :
  base_hours_of (dict7 c) (dict7 h)
  = Done (sumQ ((fun i => (inject_Z (c i) * h i)%Q) <$> range 7)).
Proof.
  unfold base_hours_of.
  rewrite (map_outcome_Done _ (fun i => (inject_Z (c i) * h i)%Q)); [reflexivity|].
  intros i Hi. apply elem_of_seqZ in Hi.
  rewrite getitem_dict7 by lia. cbn [mbind outcome_bind].
  rewrite dict_get_dict7 by lia. reflexivity.
Qed.

Lemma sumZ_values_dict7 (v : Z -> Z) : sumZ (values (dict7 v)) = sumZ (v <$> range 7).
Proof. apply sumZ_perm, values_dict7. Qed.

Lemma pca_alternating_spec (start end_ : date) (wa wb : pattern_widgets)
    (unit : string) :
  valid start -> start <= end_ -> end_ < MAXORDINAL ->
  ~ (selected_of (checks_of wa) = ∅ /\ selected_of (checks_of wb) = ∅) ->
  let days := iter_days start end_ in
  let count_A := naive_count (days_of_bucket (start - weekday start) "A" days) in
  let count_B := naive_count (days_of_bucket (start - weekday start) "B" days) in
  exists r,
    pca_alternating start end_ wa wb unit = Done r
    /\ total_calendar_days r = days_between end_ start + 1
    /\ total_days_A r = sumZ (gated_count wa count_A <$> range 7)
    /\ total_days_B r = sumZ (gated_count wb count_B <$> range 7)
    /\ total_matching_days r = total_days_A r + total_days_B r
    /\ base_hours_A r = sumQ (gated_term wa count_A <$> range 7)
    /\ base_hours_B r = sumQ (gated_term wb count_B <$> range 7)
    /\ final_total_A r = convert_total (base_hours_A r) (total_days_A r) unit
    /\ final_total_B r = convert_total (base_hours_B r) (total_days_B r) unit
    /\ final_total r = (final_total_A r + final_total_B r)%Q.
Proof.
  intros Hs Hle He Hsel days count_A count_B. unfold pca_alternating.
  rewrite alternating_pattern_ui_spec by assumption. cbn [mbind outcome_bind].
  unfold getitem. rewrite !lookup_by_bucket_A, !lookup_by_bucket_B.
  cbn [mbind outcome_bind]. rewrite !base_hours_of_dict7.
  cbn [mbind outcome_bind]. eexists. split; [reflexivity|]. cbn.
  rewrite !sumZ_values_dict7. repeat split; reflexivity.
Qed.

(** ** Days per bucket and ticked days *)

Lemma sumZ_scaled_indicator (k c : Z) :
  0 <= k < 7 -> sumZ ((fun i => if k =? i then c else 0) <$> range 7) = c.
Proof.
  intros Hk. change (range 7) with [0; 1; 2; 3; 4; 5; 6].
  rewrite !fmap_cons, fmap_nil, !sumZ_cons.
  assert (k = 0 \/ k = 1 \/ k = 2 \/ k = 3 \/ k = 4 \/ k = 5 \/ k = 6) as H by lia.
  destruct H as [->|[->|[->|[->|[->|[->| ->]]]]]]; cbn; lia.
Qed.

Lemma sumZ_gated_naive_count (w : pattern_widgets) (days : list date) :
  sumZ (gated_count w (naive_count days) <$> range 7)
  = Z.of_nat (length (ticked_days w days)).
Proof.
  unfold gated_count, ticked_days. induction days as [|d days IH].
  - rewrite (sumZ_fmap_ext _ (fun _ => 0)); [apply sumZ_fmap_zero|].
    intros i _. rewrite naive_count_nil. destruct (chk w i); reflexivity.
  - rewrite (sumZ_fmap_ext _
      (fun i => (if weekday d =? i then (if chk w (weekday d) then 1 else 0) else 0)
                + (if chk w i then naive_count days i else 0))).
    + rewrite (sumZ_fmap_add
                 (fun i => if weekday d =? i
                           then (if chk w (weekday d) then 1 else 0) else 0)).
      rewrite IH, sumZ_scaled_indicator by apply weekday_range.
      rewrite filter_cons. destruct (chk w (weekday d)).
      * rewrite decide_True by reflexivity. simpl length. lia.
      * rewrite decide_False by discriminate. lia.
    + intros i _. rewrite naive_count_cons.
      destruct (Z.eqb_spec (weekday d) i) as [->|_]; destruct (chk w i); lia.
Qed.

Lemma length_days_of_bucket (anchor : date) (days : list date) :
  (length (days_of_bucket anchor "A" days)
   + length (days_of_bucket anchor "B" days) = length days)%nat.
Proof.
  unfold days_of_bucket. induction days as [|d days IH]; [reflexivity|].
  rewrite !filter_cons. destruct (bucket_of_cases anchor d) as [E|E]; rewrite E.
  - rewrite decide_True by reflexivity. rewrite decide_False by discriminate.
    simpl. lia.
  - rewrite decide_False by discriminate. rewrite decide_True by reflexivity.
    simpl. lia.
Qed.

Lemma ticked_days_all (w : pattern_widgets) (days : list date) :
  (forall i, 0 <= i < 7 -> chk w i = true) -> ticked_days w days = days.
Proof.
  intros Hall. unfold ticked_days. induction days as [|d days IH]; [reflexivity|].
  rewrite filter_cons, decide_True by apply Hall, weekday_range.
  rewrite IH. reflexivity.
Qed.

Lemma length_ticked_days (w : pattern_widgets) (days : list date) :
  (length (ticked_days w days) <= length days)%nat.
Proof. apply length_filter. Qed.

Lemma first_days_selected (n : Z) (h : Q) :
  0 < n -> selected_of (checks_of (first_days n h)) <> ∅.
Proof.
  intros Hn E. assert (0 ∈ selected_of (checks_of (first_days n h))) as H.
  { apply elem_of_selected. split; [lia|]. simpl. apply Z.ltb_lt. exact Hn. }
  rewrite E in H. apply not_elem_of_empty in H. exact H.
Qed.

(** C2, as stated: on the span 2024-01-01 to 2024-01-14 with week A Monday
    to Friday and week B Monday to Wednesday, the reported bucket totals are
    5 and 3, which do not add up to the 14 calendar days. *)
Lemma bucket_totals_below_calendar_days :
  exists r,
    pca_alternating (ymd 2024 1 1) (ymd 2024 1 14)
      (first_days 5 8) (first_days 3 6) "Hourly" = Done r
    /\ total_days_A r = 5 /\ total_days_B r = 3 /\ total_calendar_days r = 14
    /\ total_days_A r + total_days_B r <> total_calendar_days r.
Proof.
  eexists. split; [vm_compute; reflexivity|]. cbn. repeat split. discriminate.
Qed.

(** C2, amended.  In alternating mode, for every valid span that ends before
    [date.max], the anchor-parity rule assigns every day of the span to
    exactly one of the buckets A and B; [total_days_A] and [total_days_B] are
    the numbers of days of the bucket whose weekday is ticked in the bucket's
    pattern; their sum is at most [total_calendar_days], which is
    [(end - start).days + 1], and equals it when both patterns tick all
    seven weekdays. *)
Theorem alternating_bucket_totals (start end_ : date) (wa wb : pattern_widgets)
    (unit : string) :
  valid start -> start <= end_ -> end_ < MAXORDINAL ->
  ~ (selected_of (checks_of wa) = ∅ /\ selected_of (checks_of wb) = ∅) ->
  let anchor := start - weekday start in
  let days := iter_days start end_ in
  monday_of_week start = Done anchor
  /\ (forall d, d ∈ days ->
        (bucket_of anchor d = "A" /\ bucket_of anchor d <> "B")
        \/ (bucket_of anchor d = "B" /\ bucket_of anchor d <> "A"))
  /\ exists r,
       pca_alternating start end_ wa wb unit = Done r
       /\ total_calendar_days r = days_between end_ start + 1
       /\ total_calendar_days r = Z.of_nat (length days)
       /\ total_days_A r
          = Z.of_nat (length (ticked_days wa (days_of_bucket anchor "A" days)))
       /\ total_days_B r
          = Z.of_nat (length (ticked_days wb (days_of_bucket anchor "B" days)))
       /\ total_days_A r + total_days_B r <= total_calendar_days r
       /\ ((forall i, 0 <= i < 7 -> chk wa i = true /\ chk wb i = true) ->
           total_days_A r + total_days_B r = total_calendar_days r).
Proof.
  intros Hs Hle He Hsel anchor days.
  split; [apply monday_of_week_spec; exact Hs|].
  split.
  { intros d _. destruct (bucket_of_cases anchor d) as [E|E]; rewrite E;
      [left|right]; split; (reflexivity || discriminate). }
  destruct (pca_alternating_spec start end_ wa wb unit Hs Hle He Hsel)
    as (r & Hr & Hcal & HA & HB & _).
  fold anchor days in HA, HB. rewrite sumZ_gated_naive_count in HA, HB.
  pose proof (length_days_of_bucket anchor days) as Hpart.
  assert (Z.of_nat (length days) = days_between end_ start + 1) as Hlen.
  { unfold days. rewrite length_iter_days by lia. reflexivity. }
  exists r. rewrite Hcal, HA, HB. repeat split; try assumption.
  - symmetry. exact Hlen.
  - pose proof (length_ticked_days wa (days_of_bucket anchor "A" days)).
    pose proof (length_ticked_days wb (days_of_bucket anchor "B" days)). lia.
  - intros Hall.
    rewrite !ticked_days_all by (intros i Hi; apply Hall; exact Hi). lia.
Qed.

Lemma alternating_bucket_totals_witness :
  exists r,
    pca_alternating (ymd 2024 1 1) (ymd 2024 1 14)
      (first_days 7 8) (first_days 7 6) "Hourly" = Done r
    /\ total_days_A r + total_days_B r = total_calendar_days r.
Proof.
  destruct (alternating_bucket_totals (ymd 2024 1 1) (ymd 2024 1 14)
              (first_days 7 8) (first_days 7 6) "Hourly")
    as (_ & _ & r & Hr & _ & _ & _ & _ & _ & Hall).
  - unfold valid. vm_compute. split; discriminate.
  - vm_compute. discriminate.
  - vm_compute. reflexivity.
  - intros [H _]. exact (first_days_selected 7 8 ltac:(lia) H).
  - exists r. split; [exact Hr|]. apply Hall. intros i Hi. simpl.
    split; apply Z.ltb_lt; lia.
Defined.

(** C7. For every single-day span in alternating mode the day has parity 0
    relative to the Monday of its own week, so it is assigned to bucket A
    and never to bucket B: the counts of bucket B are all zero. *)
Theorem single_day_span_in_bucket_A (start : date) (wa wb : pattern_widgets)
    (unit : string) :
  valid start ->
  let anchor := start - weekday start in
  monday_of_week start = Done anchor
  /\ week_index anchor start = 0
  /\ bucket_of anchor start = "A"
  /\ (start < MAXORDINAL ->
      ~ (selected_of (checks_of wa) = ∅ /\ selected_of (checks_of wb) = ∅) ->
      exists counts hours r,
        alternating_pattern_ui start start wa wb = Done (counts, hours)
        /\ counts !! "A"
           = Some (dict7 (fun i => if chk wa i && (weekday start =? i)
                                   then 1 else 0))
        /\ counts !! "B" = Some (dict7 (fun _ => 0))
        /\ pca_alternating start start wa wb unit = Done r
        /\ total_days_A r = (if chk wa (weekday start) then 1 else 0)
        /\ total_days_B r = 0).
Proof.
  intros Hs anchor.
  assert (week_index anchor start = 0) as Hidx.
  { unfold week_index, days_between, anchor. pose proof (weekday_range start).
    replace (start - (start - weekday start)) with (weekday start) by lia.
    rewrite Z.div_small by lia. reflexivity. }
  assert (bucket_of anchor start = "A") as Hb
    by (unfold bucket_of; rewrite Hidx; reflexivity).
  split; [apply monday_of_week_spec; exact Hs|]. split; [exact Hidx|].
  split; [exact Hb|]. intros He Hsel.
  assert (iter_days start start = [start]) as Hdays.
  { unfold iter_days, days_between. replace (start - start + 1) with 1 by lia.
    reflexivity. }
  assert (days_of_bucket anchor "A" [start] = [start]) as HdA.
  { unfold days_of_bucket. rewrite filter_cons, decide_True by exact Hb.
    reflexivity. }
  assert (days_of_bucket anchor "B" [start] = []) as HdB.
  { unfold days_of_bucket. rewrite filter_cons, decide_False; [reflexivity|].
    rewrite Hb. discriminate. }
  pose proof (alternating_pattern_ui_spec start start wa wb Hs ltac:(lia) He Hsel)
    as Hui.
  destruct (pca_alternating_spec start start wa wb unit Hs ltac:(lia) He Hsel)
    as (r & Hr & _ & HA & HB & _).
  fold anchor in Hui, HA, HB. rewrite Hdays in Hui, HA, HB.
  rewrite HdA, HdB in Hui. rewrite HdA in HA. rewrite HdB in HB.
  rewrite sumZ_gated_naive_count in HA, HB.
  eexists _, _, r. split; [exact Hui|].
  rewrite lookup_by_bucket_A, lookup_by_bucket_B. repeat split.
  - f_equal. apply dict7_ext. intros i _. unfold gated_count.
    rewrite naive_count_cons, naive_count_nil.
    destruct (chk wa i), (weekday start =? i); reflexivity.
  - f_equal. apply dict7_ext. intros i _. unfold gated_count.
    rewrite naive_count_nil. destruct (chk wb i); reflexivity.
  - exact Hr.
  - rewrite HA. unfold ticked_days. rewrite filter_cons.
    destruct (chk wa (weekday start)).
    + rewrite decide_True by reflexivity. reflexivity.
    + rewrite decide_False by discriminate. reflexivity.
  - rewrite HB. reflexivity.
Qed.

Lemma single_day_span_in_bucket_A_witness :
  bucket_of (ymd 2024 1 18 - weekday (ymd 2024 1 18)) (ymd 2024 1 18) = "A"
  /\ exists r,
       pca_alternating (ymd 2024 1 18) (ymd 2024 1 18)
         (first_days 5 8) (first_days 3 6) "Hourly" = Done r
       /\ total_days_A r = 1 /\ total_days_B r = 0.
Proof.
  destruct (single_day_span_in_bucket_A (ymd 2024 1 18)
              (first_days 5 8) (first_days 3 6) "Hourly")
    as (_ & _ & Hb & Hrun).
  - unfold valid. vm_compute. split; discriminate.
  - split; [exact Hb|].
    destruct Hrun as (counts & hours & r & _ & _ & _ & Hr & HA & HB).
    + vm_compute. reflexivity.
    + intros [H _]. exact (first_days_selected 5 8 ltac:(lia) H).
    + exists r. split; [exact Hr|]. split; [exact HA|exact HB].
Defined.

(** On 9999-12-31 the day is counted in bucket A as well, but the generator
    then asks for the day after [date.max] and the script ends with
    [OverflowError]. *)
Example single_day_span_at_date_max :
  bucket_of (MAXORDINAL - weekday MAXORDINAL) MAXORDINAL = "A"
  /\ pca_alternating MAXORDINAL MAXORDINAL (first_days 5 8) (first_days 3 6) "Hourly"
     = Raised "OverflowError".
Proof. split; vm_compute; reflexivity. Qed.

(** ** Unit conversion *)

Lemma unit_of_name_None (unit : string) :
  unit_of_name unit = None
  <-> unit <> "Hourly" /\ unit <> "15 mins" /\ unit <> "Per diem".
Proof.
  unfold unit_of_name.
  destruct (String.eqb_spec unit "Hourly") as [->|H1].
  { split; [discriminate|]. intros (H & _). congruence. }
  destruct (String.eqb_spec unit "15 mins") as [->|H2].
  { split; [discriminate|]. intros (_ & H & _). congruence. }
  destruct (String.eqb_spec unit "Per diem") as [->|H3].
  { split; [discriminate|]. intros (_ & _ & H). congruence. }
  split; [intros _; repeat split; assumption|reflexivity].
Qed.

Lemma convert_total_unrecognized (base_hours : Q) (day_count : Z) (unit : string) :
  unit_of_name unit = None -> convert_total base_hours day_count unit = base_hours.
Proof.
  unfold unit_of_name, convert_total.
  destruct (String.eqb unit "Hourly"); [discriminate|].
  destruct (String.eqb unit "15 mins"); [discriminate|].
  destruct (String.eqb unit "Per diem"); [discriminate|]. reflexivity.
Qed.

(** C3, as stated: for the unit name "Weekly", which is none of the three
    units, [convert_total] returns 8 where the spec's converter fails with
    UnknownUnitError. *)
Lemma unknown_unit_is_not_an_error :
  unit_of_name "Weekly" = None
  /\ spec_convert 8 5 "Weekly" = Raised "UnknownUnitError"
  /\ Done (convert_total 8 5 "Weekly") = Done 8%Q
  /\ Done (convert_total 8 5 "Weekly") <> spec_convert 8 5 "Weekly".
Proof. repeat split. discriminate. Qed.

(** C3, amended.  If the requested unit is not one of the three enumerated
    units, the conversion does not fail, where the spec's converter fails
    with UnknownUnitError: it returns the value it returns for Hourly. *)
Theorem convert_total_unknown_unit_as_hourly (base_hours : Q) (day_count : Z)
    (unit : string) :
  unit <> "Hourly" -> unit <> "15 mins" -> unit <> "Per diem" ->
  convert_total base_hours day_count unit
  = convert_total base_hours day_count "Hourly"
  /\ (forall exc, Done (convert_total base_hours day_count unit) <> Raised exc)
  /\ spec_convert base_hours day_count unit = Raised "UnknownUnitError".
Proof.
  intros H1 H2 H3.
  assert (unit_of_name unit = None) as Hu
    by (apply unit_of_name_None; repeat split; assumption).
  split; [|split; [discriminate|]].
  - rewrite convert_total_unrecognized by exact Hu. reflexivity.
  - unfold spec_convert. rewrite Hu. reflexivity.
Qed.

Lemma convert_total_unknown_unit_as_hourly_witness :
  convert_total 8 5 "Weekly" = convert_total 8 5 "Hourly"
  /\ (forall exc, Done (convert_total 8 5 "Weekly") <> Raised exc)
  /\ spec_convert 8 5 "Weekly" = Raised "UnknownUnitError".
Proof.
  apply (convert_total_unknown_unit_as_hourly 8 5 "Weekly"); discriminate.
Defined.

(** On the three enumerated units the script's conversion and the spec's
    converter agree. *)
Lemma convert_total_recognized (base_hours : Q) (day_count : Z) (unit : string) :
  unit_of_name unit <> None ->
  spec_convert base_hours day_count unit
  = Done (convert_total base_hours day_count unit).
Proof.
  unfold spec_convert, unit_of_name, convert_total.
  destruct (String.eqb unit "Hourly"); [reflexivity|].
  destruct (String.eqb unit "15 mins"); [reflexivity|].
  destruct (String.eqb unit "Per diem"); [reflexivity|]. congruence.
Qed.

(** C4. For every [h] and [d]: converting to Hourly returns [h], to
    15 mins returns [h * 4], and to Per diem returns [d] whatever [h] is. *)
Theorem convert_total_formulas (h h' : Q) (d : Z) :
  convert_total h d "Hourly" = h
  /\ convert_total h d "15 mins" = (h * 4)%Q
  /\ convert_total h d "Per diem" = inject_Z d
  /\ convert_total h d "Per diem" = convert_total h' d "Per diem".
Proof. repeat split. Qed.

(** C10. For every [h] and [d] and every unit string other than the three
    recognized ones, [convert_total] returns [h] unchanged, as for Hourly,
    and raises no error. *)
Theorem convert_total_fallback (h : Q) (d : Z) (unit : string) :
  unit <> "Hourly" -> unit <> "15 mins" -> unit <> "Per diem" ->
  convert_total h d unit = h
  /\ exists v, Done (convert_total h d unit) = Done v.
Proof.
  intros H1 H2 H3. split; [|eexists; reflexivity].
  apply convert_total_unrecognized, unit_of_name_None. repeat split; assumption.
Qed.

Lemma convert_total_fallback_witness :
  convert_total (15 # 2) 3 "per diem" = (15 # 2)%Q
  /\ exists v, Done (convert_total (15 # 2) 3 "per diem") = Done v.
Proof. apply (convert_total_fallback (15 # 2) 3 "per diem"); discriminate. Defined.

(** ** Prorated weekly hours *)

(** C9. In CDPAS mode [weeks_in_span] is the number of calendar days divided
    by 7, not rounded, [total_hours] is [hours_per_week] times that, and the
    15-minute units are four times the hours; ten days at 40 hours per week
    give 400/7 hours, 57.14 to two decimals. *)
Theorem cdpas_formulas (start end_ : date) (hours_per_week : Q) :
  let r := cdpas start end_ hours_per_week in
  let ten := cdpas start (start + 9) 40 in
  cdpas_total_calendar_days r = days_between end_ start + 1
  /\ (weeks_in_span r == inject_Z (cdpas_total_calendar_days r) / 7)%Q
  /\ (total_hours r == hours_per_week * weeks_in_span r)%Q
  /\ (total_15min_units r == total_hours r * 4)%Q
  /\ cdpas_total_calendar_days ten = 10
  /\ (weeks_in_span ten == 10 / 7)%Q
  /\ (total_hours ten == 400 / 7)%Q
  /\ (57135 / 1000 < total_hours ten < 57145 / 1000)%Q.
Proof.
  intros r ten.
  assert (cdpas_total_calendar_days ten = 10) as Hten
    by (unfold ten, cdpas, days_between; simpl; lia).
  assert (weeks_in_span ten == 10 / 7)%Q as Hw.
  { change (weeks_in_span ten)
      with (inject_Z (cdpas_total_calendar_days ten) / 7)%Q.
    rewrite Hten. reflexivity. }
  assert (total_hours ten == 400 / 7)%Q as Hh.
  { change (total_hours ten) with (40 * weeks_in_span ten)%Q. rewrite Hw.
    reflexivity. }
  repeat split; try reflexivity; try assumption; rewrite Hh; reflexivity.
Qed.

(** ** Per-bucket conversion *)

Lemma pca_alternating_inv (start end_ : date) (wa wb : pattern_widgets)
    (unit : string) (r : alt_result) :
  pca_alternating start end_ wa wb unit = Done r ->
  final_total r = (final_total_A r + final_total_B r)%Q
  /\ final_total_A r = convert_total (base_hours_A r) (total_days_A r) unit
  /\ final_total_B r = convert_total (base_hours_B r) (total_days_B r) unit
  /\ base_hours_total r = (base_hours_A r + base_hours_B r)%Q
  /\ total_matching_days r = total_days_A r + total_days_B r.
Proof.
  unfold pca_alternating.
  destruct (alternating_pattern_ui start end_ wa wb) as [[counts hours]| | |];
    cbn [mbind outcome_bind]; try discriminate.
  destruct (getitem counts "A") as [cA| | |]; cbn [mbind outcome_bind];
    try discriminate.
  destruct (getitem counts "B") as [cB| | |]; cbn [mbind outcome_bind];
    try discriminate.
  destruct (getitem hours "A") as [hA| | |]; cbn [mbind outcome_bind];
    try discriminate.
  destruct (getitem hours "B") as [hB| | |]; cbn [mbind outcome_bind];
    try discriminate.
  destruct (base_hours_of cA hA) as [bA| | |]; cbn [mbind outcome_bind];
    try discriminate.
  destruct (base_hours_of cB hB) as [bB| | |]; cbn [mbind outcome_bind];
    try discriminate.
  intros [= <-]. cbn. repeat split.
Qed.

(** C5. In alternating mode the final total is the sum of the two buckets'
    converted totals.  For Hourly and 15 mins this equals the conversion of
    the summed base hours and summed day counts; for Per diem it equals the
    sum of the two buckets' day counts, whatever the hours are. *)
Theorem per_bucket_conversion_sums (start end_ : date) (wa wb : pattern_widgets)
    (unit : string) (r : alt_result) :
  pca_alternating start end_ wa wb unit = Done r ->
  (final_total r
   == convert_total (base_hours_A r) (total_days_A r) unit
      + convert_total (base_hours_B r) (total_days_B r) unit)%Q
  /\ (unit = "Hourly" \/ unit = "15 mins" ->
      (final_total r
       == convert_total (base_hours_A r + base_hours_B r)
            (total_days_A r + total_days_B r) unit)%Q)
  /\ (unit = "Per diem" ->
      (final_total r == inject_Z (total_days_A r) + inject_Z (total_days_B r))%Q
      /\ forall h : Q,
           (final_total r
            == convert_total h (total_days_A r + total_days_B r) unit)%Q).
Proof.
  intros Hr. apply pca_alternating_inv in Hr as (Hf & HA & HB & _).
  rewrite Hf, HA, HB. split; [reflexivity|]. split.
  - intros [->| ->]; unfold convert_total; simpl; ring.
  - intros ->. unfold convert_total. simpl. split; [reflexivity|].
    intros _. rewrite inject_Z_plus. reflexivity.
Qed.

Lemma per_bucket_conversion_sums_witness :
  exists r,
    pca_alternating (ymd 2024 1 1) (ymd 2024 1 14)
      (first_days 5 8) (first_days 3 6) "15 mins" = Done r
    /\ (final_total r == 232)%Q
    /\ (final_total r
        == convert_total (base_hours_A r + base_hours_B r)
             (total_days_A r + total_days_B r) "15 mins")%Q.
Proof.
  eexists. split; [vm_compute; reflexivity|]. split; [reflexivity|].
  refine (proj1 (proj2 (per_bucket_conversion_sums (ymd 2024 1 1) (ymd 2024 1 14)
                          (first_days 5 8) (first_days 3 6) "15 mins" _ _)) _).
  - vm_compute. reflexivity.
  - right. reflexivity.
Defined.

(** ** Selection is the gate *)

Lemma hours_of_with_hours_day (w : pattern_widgets) (i : Z) (h : Q) :
  chk w i = false ->
  hours_of (with_hours_day w i h) (selected_of (checks_of w))
  = hours_of w (selected_of (checks_of w)).
Proof.
  intros Hi. apply map_eq. intros j.
  change (selected_of (checks_of w))
    with (selected_of (checks_of (with_hours_day w i h))) at 1.
  rewrite !lookup_hours_of. cbn [chk with_hours_day].
  destruct (chk w j) eqn:Hj; [|reflexivity].
  destruct (bool_decide (0 <= j < 7)); [|reflexivity]. simpl.
  unfold hours_entry. cbn [same_hours hrs hrs_day with_hours_day].
  destruct (same_hours w); [reflexivity|]. unfold upd.
  destruct (Z.eqb_spec j i) as [->|_]; [congruence|reflexivity].
Qed.

Lemma pca_single_with_hours_day (start end_ : date) (w : pattern_widgets)
    (unit : string) (i : Z) (h : Q) :
  chk w i = false ->
  pca_single start end_ (with_hours_day w i h) unit = pca_single start end_ w unit.
Proof.
  intros Hi. unfold pca_single, single_pattern_ui.
  change (checks_of (with_hours_day w i h)) with (checks_of w).
  rewrite hours_of_with_hours_day by exact Hi. reflexivity.
Qed.

Lemma pca_alternating_with_hours_day_A (start end_ : date)
    (wa wb : pattern_widgets) (unit : string) (i : Z) (h : Q) :
  chk wa i = false ->
  pca_alternating start end_ (with_hours_day wa i h) wb unit
  = pca_alternating start end_ wa wb unit.
Proof.
  intros Hi. unfold pca_alternating, alternating_pattern_ui.
  change (checks_of (with_hours_day wa i h)) with (checks_of wa).
  rewrite hours_of_with_hours_day by exact Hi. reflexivity.
Qed.

Lemma pca_alternating_with_hours_day_B (start end_ : date)
    (wa wb : pattern_widgets) (unit : string) (i : Z) (h : Q) :
  chk wb i = false ->
  pca_alternating start end_ wa (with_hours_day wb i h) unit
  = pca_alternating start end_ wa wb unit.
Proof.
  intros Hi. unfold pca_alternating, alternating_pattern_ui.
  change (checks_of (with_hours_day wb i h)) with (checks_of wb).
  rewrite hours_of_with_hours_day by exact Hi. reflexivity.
Qed.

Lemma sumZ_skip (f : Z -> Z) (i : Z) (l : list Z) :
  f i = 0 -> sumZ (f <$> l) = sumZ (f <$> filter (fun j => j <> i) l).
Proof.
  intros Hi. induction l as [|x l IH]; [reflexivity|].
  rewrite fmap_cons, sumZ_cons, filter_cons, IH.
  destruct (decide (x <> i)) as [Hne|He].
  - rewrite fmap_cons, sumZ_cons. reflexivity.
  - apply dec_stable in He. subst x. lia.
Qed.

Lemma sumQ_skip (f : Z -> Q) (i : Z) (l : list Z) :
  (f i == 0)%Q -> (sumQ (f <$> l) == sumQ (f <$> filter (fun j => j <> i) l))%Q.
Proof.
  intros Hi. induction l as [|x l IH]; [reflexivity|].
  rewrite fmap_cons, sumQ_cons, filter_cons, IH.
  destruct (decide (x <> i)) as [Hne|He].
  - rewrite fmap_cons, sumQ_cons. reflexivity.
  - apply dec_stable in He. subst x. rewrite Hi. ring.
Qed.

Lemma gated_term_unticked (w : pattern_widgets) (count : Z -> Z) (i : Z) :
  chk w i = false -> gated_count w count i = 0 /\ (gated_term w count i == 0)%Q.
Proof.
  intros Hi. unfold gated_term, gated_count, gated_hours. rewrite Hi.
  split; reflexivity.
Qed.

Lemma single_gate (start end_ : date) (w : pattern_widgets) (unit : string) (i : Z) :
  chk w i = false -> selected_of (checks_of w) <> ∅ ->
  exists counts hours r,
    single_pattern_ui start end_ w = Done (counts, hours)
    /\ counts !! i = None /\ hours !! i = None
    /\ pca_single start end_ w unit = Done r
    /\ single_total_matching_days r
       = sumZ (gated_count w (count_weekday start end_)
                 <$> filter (fun j => j <> i) (range 7))
    /\ (single_base_hours r
        == sumQ (gated_term w (count_weekday start end_)
                   <$> filter (fun j => j <> i) (range 7)))%Q.
Proof.
  intros Hi Hsel.
  destruct (pca_single_spec start end_ w unit Hsel) as (r & Hr & _ & Hm & Hb & _).
  destruct (gated_term_unticked w (count_weekday start end_) i Hi) as [Hc Ht].
  eexists _, _, r. split.
  { unfold single_pattern_ui. rewrite decide_False by exact Hsel. reflexivity. }
  split; [rewrite lookup_selected_counts, Hi; reflexivity|].
  split; [rewrite lookup_hours_of, Hi; reflexivity|].
  split; [exact Hr|]. split.
  - rewrite Hm. apply sumZ_skip. exact Hc.
  - rewrite Hb. apply sumQ_skip. exact Ht.
Qed.

Lemma alternating_gate (start end_ : date) (wa wb : pattern_widgets)
    (unit : string) :
  valid start -> start <= end_ -> end_ < MAXORDINAL ->
  ~ (selected_of (checks_of wa) = ∅ /\ selected_of (checks_of wb) = ∅) ->
  let days := iter_days start end_ in
  let count_A := naive_count (days_of_bucket (start - weekday start) "A" days) in
  let count_B := naive_count (days_of_bucket (start - weekday start) "B" days) in
  exists counts hours cA cB hA hB r,
    alternating_pattern_ui start end_ wa wb = Done (counts, hours)
    /\ counts !! "A" = Some cA /\ counts !! "B" = Some cB
    /\ hours !! "A" = Some hA /\ hours !! "B" = Some hB
    /\ pca_alternating start end_ wa wb unit = Done r
    /\ (forall i, 0 <= i < 7 -> chk wa i = false ->
        cA !! i = Some 0 /\ hA !! i = Some 0%Q
        /\ total_days_A r
           = sumZ (gated_count wa count_A <$> filter (fun j => j <> i) (range 7))
        /\ (base_hours_A r
            == sumQ (gated_term wa count_A <$> filter (fun j => j <> i) (range 7)))%Q)
    /\ (forall i, 0 <= i < 7 -> chk wb i = false ->
        cB !! i = Some 0 /\ hB !! i = Some 0%Q
        /\ total_days_B r
           = sumZ (gated_count wb count_B <$> filter (fun j => j <> i) (range 7))
        /\ (base_hours_B r
            == sumQ (gated_term wb count_B <$> filter (fun j => j <> i) (range 7)))%Q).
Proof.
  intros Hs Hle He Hsel days count_A count_B.
  pose proof (alternating_pattern_ui_spec start end_ wa wb Hs Hle He Hsel) as Hui.
  destruct (pca_alternating_spec start end_ wa wb unit Hs Hle He Hsel)
    as (r & Hr & _ & HA & HB & _ & HbA & HbB & _).
  fold days count_A count_B in Hui, HA, HB, HbA, HbB.
  eexists _, _, _, _, _, _, r. split; [exact Hui|].
  split; [apply lookup_by_bucket_A|]. split; [apply lookup_by_bucket_B|].
  split; [apply lookup_by_bucket_A|]. split; [apply lookup_by_bucket_B|].
  split; [exact Hr|]. split; intros i Hi Hc.
  - destruct (gated_term_unticked wa count_A i Hc) as [Hc0 Ht0].
    rewrite !lookup_dict7, !decide_True by exact Hi.
    unfold gated_count at 1, gated_hours at 1. rewrite Hc.
    split; [reflexivity|]. split; [reflexivity|]. split.
    + rewrite HA. apply sumZ_skip. exact Hc0.
    + rewrite HbA. apply sumQ_skip. exact Ht0.
  - destruct (gated_term_unticked wb count_B i Hc) as [Hc0 Ht0].
    rewrite !lookup_dict7, !decide_True by exact Hi.
    unfold gated_count at 1, gated_hours at 1. rewrite Hc.
    split; [reflexivity|]. split; [reflexivity|]. split.
    + rewrite HB. apply sumZ_skip. exact Hc0.
    + rewrite HbB. apply sumQ_skip. exact Ht0.
Qed.

(** C8. For every span, pattern and unit, a weekday that is not ticked in the
    selection (of the bucket, in alternating mode) contributes zero to the
    matching-day count and to the base hours: it has no entry in the single
    pattern's dicts and the entries 0 and 0.0 in the bucket's dicts, the
    totals are the sums over the other weekdays, and they are the same
    whatever hours value is entered for that weekday. *)
Theorem unselected_weekday_contributes_nothing (start end_ : date)
    (w wa wb : pattern_widgets) (unit : string) (i : Z) (h : Q) :
  (chk w i = false ->
   pca_single start end_ (with_hours_day w i h) unit = pca_single start end_ w unit
   /\ (selected_of (checks_of w) <> ∅ ->
       exists counts hours r,
         single_pattern_ui start end_ w = Done (counts, hours)
         /\ counts !! i = None /\ hours !! i = None
         /\ pca_single start end_ w unit = Done r
         /\ single_total_matching_days r
            = sumZ (gated_count w (count_weekday start end_)
                      <$> filter (fun j => j <> i) (range 7))
         /\ (single_base_hours r
             == sumQ (gated_term w (count_weekday start end_)
                        <$> filter (fun j => j <> i) (range 7)))%Q))
  /\ (chk wa i = false ->
      pca_alternating start end_ (with_hours_day wa i h) wb unit
      = pca_alternating start end_ wa wb unit)
  /\ (chk wb i = false ->
      pca_alternating start end_ wa (with_hours_day wb i h) unit
      = pca_alternating start end_ wa wb unit)
  /\ (valid start -> start <= end_ -> end_ < MAXORDINAL -> 0 <= i < 7 ->
      ~ (selected_of (checks_of wa) = ∅ /\ selected_of (checks_of wb) = ∅) ->
      let days := iter_days start end_ in
      let count_A := naive_count (days_of_bucket (start - weekday start) "A" days) in
      let count_B := naive_count (days_of_bucket (start - weekday start) "B" days) in
      exists counts hours cA cB hA hB r,
        alternating_pattern_ui start end_ wa wb = Done (counts, hours)
        /\ counts !! "A" = Some cA /\ counts !! "B" = Some cB
        /\ hours !! "A" = Some hA /\ hours !! "B" = Some hB
        /\ pca_alternating start end_ wa wb unit = Done r
        /\ (chk wa i = false ->
            cA !! i = Some 0 /\ hA !! i = Some 0%Q
            /\ total_days_A r
               = sumZ (gated_count wa count_A
                         <$> filter (fun j => j <> i) (range 7))
            /\ (base_hours_A r
                == sumQ (gated_term wa count_A
                           <$> filter (fun j => j <> i) (range 7)))%Q)
        /\ (chk wb i = false ->
            cB !! i = Some 0 /\ hB !! i = Some 0%Q
            /\ total_days_B r
               = sumZ (gated_count wb count_B
                         <$> filter (fun j => j <> i) (range 7))
            /\ (base_hours_B r
                == sumQ (gated_term wb count_B
                           <$> filter (fun j => j <> i) (range 7)))%Q)).
Proof.
  split; [|split; [|split]].
  - intros Hi. split; [apply pca_single_with_hours_day; exact Hi|].
    apply single_gate. exact Hi.
  - apply pca_alternating_with_hours_day_A.
  - apply pca_alternating_with_hours_day_B.
  - intros Hs Hle He Hi Hsel days count_A count_B.
    destruct (alternating_gate start end_ wa wb unit Hs Hle He Hsel)
      as (counts & hours & cA & cB & hA & hB & r & Hui & H1 & H2 & H3 & H4 & Hr
          & HgA & HgB).
    exists counts, hours, cA, cB, hA, hB, r. repeat (split; [assumption|]).
    split; [apply HgA|apply HgB]; exact Hi.
Qed.

Lemma unselected_weekday_contributes_nothing_witness :
  pca_single (ymd 2024 1 1) (ymd 2024 1 14)
    (with_hours_day (each_day 5 (fun _ => 8%Q)) 5 24) "Hourly"
  = pca_single (ymd 2024 1 1) (ymd 2024 1 14) (each_day 5 (fun _ => 8%Q)) "Hourly"
  /\ exists r,
       pca_alternating (ymd 2024 1 1) (ymd 2024 1 14)
         (each_day 5 (fun _ => 8%Q)) (each_day 3 (fun _ => 6%Q)) "Hourly" = Done r
       /\ total_days_B r
          = sumZ (gated_count (each_day 3 (fun _ => 6%Q))
                    (naive_count
                       (days_of_bucket (ymd 2024 1 1 - weekday (ymd 2024 1 1)) "B"
                          (iter_days (ymd 2024 1 1) (ymd 2024 1 14))))
                    <$> filter (fun j => j <> 5) (range 7)).
Proof.
  destruct (unselected_weekday_contributes_nothing (ymd 2024 1 1) (ymd 2024 1 14)
              (each_day 5 (fun _ => 8%Q)) (each_day 5 (fun _ => 8%Q))
              (each_day 3 (fun _ => 6%Q)) "Hourly" 5 24)
    as (Hsingle & _ & _ & Halt).
  split.
  - apply Hsingle. reflexivity.
  - destruct Halt as (counts & hours & cA & cB & hA & hB & r & _ & _ & _ & _ & _
                      & Hr & _ & HB).
    + unfold valid. vm_compute. split; discriminate.
    + vm_compute. discriminate.
    + vm_compute. reflexivity.
    + lia.
    + intros [H _].
      assert (0 ∈ selected_of (checks_of (each_day 5 (fun _ => 8%Q)))) as H0
        by (apply elem_of_selected; split; [lia|reflexivity]).
      rewrite H in H0. apply not_elem_of_empty in H0. exact H0.
    + exists r. split; [exact Hr|]. apply HB. reflexivity.
Defined.

(** The spec's scenarios, run through the model. *)
Example scenario_single_pattern :
  exists r,
    pca_single (ymd 2024 1 1) (ymd 2024 1 14) (first_days 5 8) "Hourly" = Done r
    /\ single_total_matching_days r = 10 /\ (single_final_total r == 80)%Q.
Proof. eexists. split; [vm_compute; reflexivity|]. split; reflexivity. Qed.

Example scenario_alternating :
  exists r,
    pca_alternating (ymd 2024 1 1) (ymd 2024 1 14)
      (first_days 5 8) (first_days 3 6) "Hourly" = Done r
    /\ (base_hours_A r == 40)%Q /\ (base_hours_B r == 18)%Q
    /\ (final_total r == 58)%Q.
Proof. eexists. split; [vm_compute; reflexivity|]. repeat split. Qed.

(** The prorated scenario on binary64 floats: ten days at 40 hours per week
    give the double 8042142191733029 * 2^-47, which Python prints as
    57.142857142857146 and [:,.2f] renders as 57.14. *)
Example cdpas_scenario_binary64 :
  Prim2SF (cdpas_total_hours_binary64 10 40%float)
  = S754_finite false 8042142191733029 (-47)
  /\ (57135 / 1000 < 8042142191733029 # 140737488355328)%Q
  /\ (8042142191733029 # 140737488355328 < 57145 / 1000)%Q.
Proof. repeat split; vm_compute; reflexivity. Qed.

(** * Further properties of the script *)

(** ** The generator, Mondays and buckets *)

(** [daterange_inclusive] on two dates returns a generator that yields
    [start], [start + 1], ..., [end] in this order and nothing else (nothing
    at all when [start > end]); it finishes normally unless the span is
    non-empty and ends on [date.max], where it raises [OverflowError] after
    the last day. *)
Theorem daterange_inclusive_behaviour (start end_ : date) :
  valid start -> valid end_ ->
  exists g,
    daterange_inclusive start end_ = Some g
    /\ yields g = seqZ start (end_ - start + 1)
    /\ (forall d, d ∈ yields g <-> start <= d <= end_)
    /\ (forall i d, yields g !! i = Some d -> d = start + Z.of_nat i)
    /\ (end_ < start -> yields g = [] /\ finish g = None)
    /\ (start <= end_ -> end_ < MAXORDINAL -> finish g = None)
    /\ (start <= end_ -> end_ = MAXORDINAL -> finish g = Some "OverflowError").
Proof.
  unfold valid. intros Hs He. destruct (Z_lt_le_dec end_ start) as [Hlt|Hle].
  - exists (Generated [] None). unfold daterange_inclusive, daterange_fuel.
    cbn [daterange_loop]. destruct (Z.leb_spec start end_) as [Hse|Hse]; [lia|].
    rewrite seqZ_nil by lia. cbn [yields finish].
    split; [reflexivity|]. split; [reflexivity|]. split.
    { intros d. split; [intros Hd; inversion Hd|lia]. }
    split; [intros i d Hi; destruct i; discriminate Hi|].
    repeat split; lia.
  - destruct (daterange_inclusive_yields start end_) as (g & Hg & Hy & Hf);
      [exact Hs|exact He|exact Hle|].
    exists g. unfold iter_days, days_between in Hy. rewrite Hy.
    split; [exact Hg|]. split; [reflexivity|]. split.
    { intros d. rewrite elem_of_seqZ. lia. }
    split.
    { intros i d Hi. apply lookup_seqZ in Hi. lia. }
    split; [lia|]. rewrite Hf. split.
    + intros _ Hm. destruct (Z.eqb_spec end_ MAXORDINAL); [lia|reflexivity].
    + intros _ ->. reflexivity.
Qed.

Lemma daterange_inclusive_behaviour_witness :
  exists g,
    daterange_inclusive (ymd 2024 2 28) (ymd 2024 3 1) = Some g
    /\ yields g = [ymd 2024 2 28; ymd 2024 2 29; ymd 2024 3 1]
    /\ finish g = None.
Proof.
  destruct (daterange_inclusive_behaviour (ymd 2024 2 28) (ymd 2024 3 1))
    as (g & Hg & Hy & _ & _ & _ & Hf & _).
  - unfold valid. vm_compute. split; discriminate.
  - unfold valid. vm_compute. split; discriminate.
  - exists g. split; [exact Hg|]. split; [exact Hy|].
    apply Hf; vm_compute; [discriminate|reflexivity].
Defined.

(** [monday_of_week] never raises on a date: it returns a date that is a
    Monday, at most six days before the given day, and is its own Monday. *)
Theorem monday_of_week_is_monday (d : date) :
  valid d ->
  exists m,
    monday_of_week d = Done m
    /\ valid m /\ weekday m = 0 /\ m <= d <= m + 6
    /\ monday_of_week m = Done m.
Proof.
  intros Hd. destruct (monday_of_week_spec d Hd) as [Hm Hv].
  exists (d - weekday d). split; [exact Hm|]. split; [exact Hv|].
  pose proof (weekday_range d) as Hr.
  assert (weekday (d - weekday d) = 0) as H0.
  { unfold weekday in *. Z.div_mod_to_equations. lia. }
  split; [exact H0|]. split; [lia|].
  destruct (monday_of_week_spec (d - weekday d) Hv) as [Hm' _].
  rewrite Hm', H0. f_equal. lia.
Qed.

Lemma monday_of_week_is_monday_witness :
  exists m, monday_of_week (ymd 2024 2 29) = Done m /\ m = ymd 2024 2 26.
Proof.
  destruct (monday_of_week_is_monday (ymd 2024 2 29)) as (m & Hm & _).
  - unfold valid. vm_compute. split; discriminate.
  - exists m. split; [exact Hm|]. vm_compute in Hm. injection Hm as <-.
    reflexivity.
Defined.

(** With a Monday as anchor, two days of the same Monday-to-Sunday week are
    put in the same bucket. *)
Theorem same_week_same_bucket (anchor d1 d2 : date) :
  weekday anchor = 0 ->
  d1 - weekday d1 = d2 - weekday d2 ->
  week_index anchor d1 = week_index anchor d2
  /\ bucket_of anchor d1 = bucket_of anchor d2.
Proof.
  intros Ha Hw.
  assert (week_index anchor d1 = week_index anchor d2) as H.
  { unfold week_index, days_between. f_equal.
    pose proof (weekday_range d1). pose proof (weekday_range d2).
    unfold weekday in *. Z.div_mod_to_equations. lia. }
  split; [exact H|]. unfold bucket_of. rewrite H. reflexivity.
Qed.

Lemma same_week_same_bucket_witness :
  bucket_of (ymd 2024 1 1) (ymd 2024 1 9) = bucket_of (ymd 2024 1 1) (ymd 2024 1 14).
Proof.
  apply (same_week_same_bucket (ymd 2024 1 1) (ymd 2024 1 9) (ymd 2024 1 14));
    vm_compute; reflexivity.
Defined.

(** The buckets alternate weekly: the day seven days later is in the other
    bucket, the day fourteen days later in the same one, and the seven days
    from the anchor on are in bucket A. *)
Theorem buckets_alternate_weekly (anchor d : date) :
  bucket_of anchor (d + 7) <> bucket_of anchor d
  /\ bucket_of anchor (d + 14) = bucket_of anchor d
  /\ (anchor <= d <= anchor + 6 -> bucket_of anchor d = "A")
  /\ (anchor + 7 <= d <= anchor + 13 -> bucket_of anchor d = "B").
Proof.
  unfold bucket_of, week_index, days_between.
  assert ((d + 7 - anchor) / 7 = (d - anchor) / 7 + 1) as H7
    by (Z.div_mod_to_equations; lia).
  assert ((d + 14 - anchor) / 7 = (d - anchor) / 7 + 2) as H14
    by (Z.div_mod_to_equations; lia).
  rewrite H7, H14. set (q := (d - anchor) / 7).
  assert ((q + 2) mod 2 = q mod 2) as -> by (Z.div_mod_to_equations; lia).
  assert (0 <= q mod 2 < 2) as Hq by (apply Z.mod_pos_bound; lia).
  assert ((q + 1) mod 2 = 1 - q mod 2) as -> by (Z.div_mod_to_equations; lia).
  split; [|split; [reflexivity|split]].
  - destruct (Z.eqb_spec (q mod 2) 0) as [E|E].
    + rewrite E. simpl. discriminate.
    + destruct (Z.eqb_spec (1 - q mod 2) 0); [discriminate|lia].
  - intros Hd. assert (q = 0) as -> by (unfold q; Z.div_mod_to_equations; lia).
    reflexivity.
  - intros Hd. assert (q = 1) as -> by (unfold q; Z.div_mod_to_equations; lia).
    reflexivity.
Qed.

Lemma buckets_alternate_weekly_witness :
  bucket_of (ymd 2024 1 1) (ymd 2024 1 7) = "A"
  /\ bucket_of (ymd 2024 1 1) (ymd 2024 1 8) = "B".
Proof.
  destruct (buckets_alternate_weekly (ymd 2024 1 1) (ymd 2024 1 7))
    as (_ & _ & HA & _).
  destruct (buckets_alternate_weekly (ymd 2024 1 1) (ymd 2024 1 8))
    as (_ & _ & _ & HB).
  split; [apply HA|apply HB]; vm_compute; split; discriminate.
Defined.

(** ** More on [count_weekday] *)

(** On a valid span every weekday is counted [total_days // 7] times or once
    more, never a negative number of times, and exactly [total_days // 7]
    times when the span is a whole number of weeks. *)
Theorem count_weekday_bounds (start end_ : date) (w : Z) :
  start <= end_ -> 0 <= w < 7 ->
  let total_days := count_total_days start end_ in
  total_days / 7 <= count_weekday start end_ w <= total_days / 7 + 1
  /\ 0 <= count_weekday start end_ w <= total_days
  /\ (total_days mod 7 = 0 -> count_weekday start end_ w = total_days / 7).
Proof.
  intros Hle Hw total_days.
  rewrite count_weekday_closed by lia. fold total_days.
  assert (1 <= total_days)
    by (unfold total_days, count_total_days, days_between; lia).
  assert (0 <= (w - weekday start) mod 7 < 7) by (apply Z.mod_pos_bound; lia).
  set (r := (w - weekday start) mod 7) in *. clearbody r total_days.
  split; [|split; [|intros Hm]]; Z.div_mod_to_equations; lia.
Qed.

Lemma count_weekday_bounds_witness :
  count_weekday (ymd 2024 1 3) (ymd 2024 1 30) 6 = 4.
Proof.
  destruct (count_weekday_bounds (ymd 2024 1 3) (ymd 2024 1 30) 6)
    as (_ & _ & Hm).
  - vm_compute. discriminate.
  - lia.
  - exact (Hm eq_refl).
Defined.

Lemma filter_none {A : Type} (P : A -> Prop) `{!forall x, Decision (P x)}
    (l : list A) :
  (forall x, ~ P x) -> filter P l = [].
Proof.
  intros Hn. induction l as [|x l IH]; [reflexivity|].
  rewrite filter_cons, decide_False by apply Hn. exact IH.
Qed.

(** For a target that is no weekday number (outside 0..6), [count_weekday]
    still returns [total_days // 7], although no day of the span has such a
    weekday. *)
Theorem count_weekday_of_no_weekday (start end_ : date) (w : Z) :
  ~ 0 <= w < 7 ->
  count_weekday start end_ w = count_total_days start end_ / 7
  /\ naive_count (iter_days start end_) w = 0.
Proof.
  intros Hw. split.
  - unfold count_weekday. cbv zeta.
    rewrite (fold_left_count (fun i => (weekday start + i) mod 7 =? w)).
    rewrite filter_none; [simpl; lia|].
    intros i Hi. apply Z.eqb_eq in Hi.
    pose proof (Z.mod_pos_bound (weekday start + i) 7). lia.
  - unfold naive_count. rewrite filter_none; [reflexivity|].
    intros d Hd. pose proof (weekday_range d). lia.
Qed.

Lemma count_weekday_of_no_weekday_witness :
  count_weekday (ymd 2024 1 1) (ymd 2024 1 31) 7 = 4
  /\ naive_count (iter_days (ymd 2024 1 1) (ymd 2024 1 31)) 7 = 0.
Proof.
  apply (count_weekday_of_no_weekday (ymd 2024 1 1) (ymd 2024 1 31) 7). lia.
Defined.

(** Extending a span by one day adds one to the count of that day's weekday
    and leaves the other counts unchanged. *)
Theorem count_weekday_extend (start end_ : date) (w : Z) :
  start <= end_ + 1 -> 0 <= w < 7 ->
  count_weekday start (end_ + 1) w
  = count_weekday start end_ w + (if weekday (end_ + 1) =? w then 1 else 0).
Proof.
  intros Hle Hw. rewrite !count_weekday_naive by lia.
  unfold iter_days, days_between.
  replace (end_ + 1 - start + 1) with ((end_ - start + 1) + 1) by lia.
  rewrite seqZ_app by lia. rewrite naive_count_app.
  replace (start + (end_ - start + 1)) with (end_ + 1) by lia.
  change (seqZ (end_ + 1) 1) with [end_ + 1].
  rewrite naive_count_cons, naive_count_nil. lia.
Qed.

Lemma count_weekday_extend_witness :
  count_weekday (ymd 2024 1 1) (ymd 2024 1 10 + 1) 3
  = count_weekday (ymd 2024 1 1) (ymd 2024 1 10) 3
    + (if weekday (ymd 2024 1 10 + 1) =? 3 then 1 else 0).
Proof.
  apply (count_weekday_extend (ymd 2024 1 1) (ymd 2024 1 10) 3);
    vm_compute; repeat split; discriminate.
Defined.

(** Splitting a span in two adjacent spans splits every weekday count. *)
Theorem count_weekday_split (start mid end_ : date) (w : Z) :
  start <= mid + 1 -> mid <= end_ -> 0 <= w < 7 ->
  count_weekday start end_ w
  = count_weekday start mid w + count_weekday (mid + 1) end_ w.
Proof.
  intros H1 H2 Hw. rewrite !count_weekday_naive by lia.
  unfold iter_days, days_between.
  replace (end_ - start + 1) with ((mid - start + 1) + (end_ - (mid + 1) + 1))
    by lia.
  rewrite seqZ_app by lia. rewrite naive_count_app.
  replace (start + (mid - start + 1)) with (mid + 1) by lia. reflexivity.
Qed.

Lemma count_weekday_split_witness :
  count_weekday (ymd 2024 1 1) (ymd 2024 3 31) 4
  = count_weekday (ymd 2024 1 1) (ymd 2024 2 10) 4
    + count_weekday (ymd 2024 2 10 + 1) (ymd 2024 3 31) 4.
Proof.
  apply (count_weekday_split (ymd 2024 1 1) (ymd 2024 2 10) (ymd 2024 3 31) 4);
    vm_compute; repeat split; discriminate.
Defined.

(** Moving a span by [k] days moves the counts by [k] weekdays; moving it by
    whole weeks changes nothing. *)
Theorem count_weekday_shift (start end_ : date) (w k : Z) :
  start <= end_ + 1 -> 0 <= w < 7 ->
  count_weekday (start + k) (end_ + k) ((w + k) mod 7) = count_weekday start end_ w
  /\ count_weekday (start + 7 * k) (end_ + 7 * k) w = count_weekday start end_ w.
Proof.
  intros Hle Hw.
  assert (0 <= (w + k) mod 7 < 7) as Hwk by (apply Z.mod_pos_bound; lia).
  rewrite !count_weekday_closed by lia.
  unfold count_total_days, days_between, weekday.
  replace (end_ + k - (start + k)) with (end_ - start) by lia.
  replace (end_ + 7 * k - (start + 7 * k)) with (end_ - start) by lia.
  assert (((w + k) mod 7 - (start + k + 6) mod 7) mod 7
          = (w - (start + 6) mod 7) mod 7) as ->.
  { rewrite <- Zminus_mod, Zminus_mod_idemp_r. f_equal. lia. }
  assert ((w - (start + 7 * k + 6) mod 7) mod 7
          = (w - (start + 6) mod 7) mod 7) as ->.
  { rewrite !Zminus_mod_idemp_r.
    replace (w - (start + 7 * k + 6)) with (w - (start + 6) + (- k) * 7) by lia.
    apply Z_mod_plus_full. }
  split; reflexivity.
Qed.

Lemma count_weekday_shift_witness :
  count_weekday (ymd 2024 1 1 + 3) (ymd 2024 1 10 + 3) ((6 + 3) mod 7)
  = count_weekday (ymd 2024 1 1) (ymd 2024 1 10) 6.
Proof.
  apply (count_weekday_shift (ymd 2024 1 1) (ymd 2024 1 10) 6 3);
    vm_compute; repeat split; discriminate.
Defined.

(** ** What the two pattern forms return *)

Lemma selected_empty_iff (w : pattern_widgets) :
  selected_of (checks_of w) = ∅ <-> forall i, 0 <= i < 7 -> chk w i = false.
Proof.
  split.
  - intros E i Hi. destruct (chk w i) eqn:Hc; [|reflexivity].
    assert (i ∈ selected_of (checks_of w)) as Hin
      by (apply elem_of_selected; split; assumption).
    rewrite E in Hin. apply not_elem_of_empty in Hin. destruct Hin.
  - intros Hall. apply leibniz_equiv. intros i. split.
    + intros Hin. apply elem_of_selected in Hin as [Hi Hc].
      rewrite Hall in Hc by exact Hi. discriminate.
    + intros Hin. apply not_elem_of_empty in Hin. destruct Hin.
Qed.

Lemma selected_nonempty (w : pattern_widgets) (i : Z) :
  0 <= i < 7 -> chk w i = true -> selected_of (checks_of w) <> ∅.
Proof.
  intros Hi Hc E. rewrite selected_empty_iff in E.
  rewrite E in Hc by exact Hi. discriminate.
Qed.

(** The single-pattern form stops the script exactly when none of the seven
    weekday boxes is ticked.  Otherwise it returns two dicts with the same
    keys, the ticked weekdays: the count of each, and its hours. *)
Theorem single_pattern_ui_outcome (start end_ : date) (w : pattern_widgets) :
  ((forall i, 0 <= i < 7 -> chk w i = false) ->
   single_pattern_ui start end_ w = Stopped "Select at least one weekday.")
  /\ ((exists i, 0 <= i < 7 /\ chk w i = true) ->
      exists counts hours,
        single_pattern_ui start end_ w = Done (counts, hours)
        /\ dom counts = dom hours
        /\ forall i,
             (i ∈ dom counts <-> 0 <= i < 7 /\ chk w i = true)
             /\ (0 <= i < 7 -> chk w i = true ->
                 counts !! i = Some (count_weekday start end_ i)
                 /\ hours !! i = Some (hours_entry w i))).
Proof.
  unfold single_pattern_ui. cbv zeta. split.
  - intros Hall. rewrite decide_True by (apply selected_empty_iff; exact Hall).
    reflexivity.
  - intros (i0 & Hi0 & Hc0).
    rewrite decide_False by (apply (selected_nonempty w i0); assumption).
    eexists _, _. split; [reflexivity|].
    match goal with
    | |- dom ?c = dom ?h /\ _ => set (counts := c); set (hours := h)
    end.
    assert (forall i, counts !! i
              = if chk w i && bool_decide (0 <= i < 7)
                then Some (count_weekday start end_ i) else None) as Hlc
      by (intros i; apply lookup_selected_counts).
    assert (forall i, hours !! i
              = if chk w i && bool_decide (0 <= i < 7)
                then Some (hours_entry w i) else None) as Hlh
      by (intros i; apply lookup_hours_of).
    assert (forall i, (chk w i && bool_decide (0 <= i < 7)) = true
                      <-> 0 <= i < 7 /\ chk w i = true) as Hb.
    { intros i. rewrite andb_true_iff, bool_decide_eq_true. tauto. }
    assert (forall i, i ∈ dom counts <-> 0 <= i < 7 /\ chk w i = true) as Hdc.
    { intros i. rewrite elem_of_dom, Hlc, <- Hb.
      destruct (chk w i && bool_decide (0 <= i < 7)).
      - split; [reflexivity|eexists; reflexivity].
      - split; [intros [x Hx]; discriminate|discriminate]. }
    assert (forall i, i ∈ dom hours <-> 0 <= i < 7 /\ chk w i = true) as Hdh.
    { intros i. rewrite elem_of_dom, Hlh, <- Hb.
      destruct (chk w i && bool_decide (0 <= i < 7)).
      - split; [reflexivity|eexists; reflexivity].
      - split; [intros [x Hx]; discriminate|discriminate]. }
    split.
    { apply leibniz_equiv. intros i. rewrite Hdc, Hdh. reflexivity. }
    intros i. split; [apply Hdc|].
    intros Hi Hc. rewrite Hlc, Hlh, Hc.
    rewrite bool_decide_true by exact Hi. split; reflexivity.
Qed.

Lemma single_pattern_ui_outcome_witness :
  single_pattern_ui (ymd 2024 1 1) (ymd 2024 1 14) (first_days 0 8)
  = Stopped "Select at least one weekday."
  /\ exists counts hours,
       single_pattern_ui (ymd 2024 1 1) (ymd 2024 1 14) (first_days 5 8)
       = Done (counts, hours)
       /\ dom counts = dom hours.
Proof.
  split.
  - apply (single_pattern_ui_outcome (ymd 2024 1 1) (ymd 2024 1 14) (first_days 0 8)).
    intros i Hi. simpl. apply Z.ltb_ge. lia.
  - destruct (proj2 (single_pattern_ui_outcome (ymd 2024 1 1) (ymd 2024 1 14)
                       (first_days 5 8)))
      as (counts & hours & Hui & Hdom & _).
    + exists 0. split; [lia|reflexivity].
    + exists counts, hours. split; [exact Hui|exact Hdom].
Defined.

(** The alternating form stops the script, whatever the dates, when no box
    is ticked in week A and none in week B.  With a box ticked and a span
    that ends on [date.max] the run ends with [OverflowError], raised by the
    generator after the last day was counted. *)
Theorem alternating_pattern_ui_stop_and_overflow (start end_ : date)
    (wa wb : pattern_widgets) (unit : string) :
  ((forall i, 0 <= i < 7 -> chk wa i = false /\ chk wb i = false) ->
   alternating_pattern_ui start end_ wa wb
   = Stopped "Select at least one weekday in Week A or Week B."
   /\ pca_alternating start end_ wa wb unit
      = Stopped "Select at least one weekday in Week A or Week B.")
  /\ ((exists i, 0 <= i < 7 /\ (chk wa i = true \/ chk wb i = true)) ->
      valid start -> start <= end_ -> end_ = MAXORDINAL ->
      alternating_pattern_ui start end_ wa wb = Raised "OverflowError"
      /\ pca_alternating start end_ wa wb unit = Raised "OverflowError").
Proof.
  split.
  - intros Hall.
    assert (alternating_pattern_ui start end_ wa wb
            = Stopped "Select at least one weekday in Week A or Week B.") as E.
    { unfold alternating_pattern_ui. cbv zeta. rewrite decide_True; [reflexivity|].
      split; apply selected_empty_iff; intros i Hi; apply Hall; exact Hi. }
    split; [exact E|]. unfold pca_alternating. rewrite E. reflexivity.
  - intros (i & Hi & Hc) Hs Hle He.
    assert (alternating_pattern_ui start end_ wa wb = Raised "OverflowError") as E.
    { unfold alternating_pattern_ui. cbv zeta. rewrite decide_False.
      2:{ intros [HA HB]. rewrite selected_empty_iff in HA, HB.
          destruct Hc as [Hc|Hc]; [rewrite HA in Hc|rewrite HB in Hc];
            (exact Hi || discriminate). }
      destruct (monday_of_week_spec start Hs) as [-> _]. cbn [mbind outcome_bind].
      destruct (daterange_inclusive_yields start end_) as (g & Hg & Hy & Hf);
        [exact Hs|unfold valid in *; lia|exact Hle|].
      rewrite Hg. unfold for_generated. rewrite Hy, Hf.
      change ({[ "A" := dict7 (fun _ : Z => 0); "B" := dict7 (fun _ : Z => 0) ]})
        with (by_bucket (dict7 (fun _ : Z => 0)) (dict7 (fun _ : Z => 0))).
      rewrite counting_loop_spec. cbn [mbind outcome_bind].
      destruct (Z.eqb_spec end_ MAXORDINAL); [reflexivity|contradiction]. }
    split; [exact E|]. unfold pca_alternating. rewrite E. reflexivity.
Qed.

Lemma alternating_pattern_ui_stop_and_overflow_witness :
  alternating_pattern_ui (ymd 2024 1 14) (ymd 2024 1 1) (first_days 0 8) (first_days 0 6)
  = Stopped "Select at least one weekday in Week A or Week B."
  /\ alternating_pattern_ui (ymd 9999 12 1) (ymd 9999 12 31)
       (first_days 5 8) (first_days 0 6)
     = Raised "OverflowError".
Proof.
  split.
  - apply (alternating_pattern_ui_stop_and_overflow (ymd 2024 1 14) (ymd 2024 1 1)
             (first_days 0 8) (first_days 0 6) "Hourly").
    intros i Hi. simpl. split; apply Z.ltb_ge; lia.
  - apply (alternating_pattern_ui_stop_and_overflow (ymd 9999 12 1) (ymd 9999 12 31)
             (first_days 5 8) (first_days 0 6) "Hourly").
    + exists 0. split; [lia|left; reflexivity].
    + unfold valid. vm_compute. split; discriminate.
    + vm_compute. discriminate.
    + reflexivity.
Defined.

(** When the alternating form returns, both outer dicts have exactly the keys
    "A" and "B" and every inner dict exactly the keys 0..6, so no later
    subscript can fail; the count of a ticked weekday is the number of days
    of the span that the parity rule puts in the bucket on that weekday, the
    count and the hours of an unticked weekday are zero. *)
Theorem alternating_pattern_ui_returns (start end_ : date) (wa wb : pattern_widgets) :
  valid start -> start <= end_ -> end_ < MAXORDINAL ->
  (exists i, 0 <= i < 7 /\ (chk wa i = true \/ chk wb i = true)) ->
  let days := iter_days start end_ in
  let anchor := start - weekday start in
  exists counts hours cA cB hA hB,
    alternating_pattern_ui start end_ wa wb = Done (counts, hours)
    /\ dom counts = {[ "A"; "B" ]} /\ dom hours = {[ "A"; "B" ]}
    /\ counts !! "A" = Some cA /\ counts !! "B" = Some cB
    /\ hours !! "A" = Some hA /\ hours !! "B" = Some hB
    /\ (forall i, (i ∈ dom cA <-> 0 <= i < 7) /\ (i ∈ dom cB <-> 0 <= i < 7)
                  /\ (i ∈ dom hA <-> 0 <= i < 7) /\ (i ∈ dom hB <-> 0 <= i < 7))
    /\ (forall i, 0 <= i < 7 ->
          cA !! i = Some (if chk wa i
                          then naive_count (days_of_bucket anchor "A" days) i
                          else 0)
          /\ cB !! i = Some (if chk wb i
                             then naive_count (days_of_bucket anchor "B" days) i
                             else 0)
          /\ hA !! i = Some (if chk wa i then hours_entry wa i else 0%Q)
          /\ hB !! i = Some (if chk wb i then hours_entry wb i else 0%Q)).
Proof.
  intros Hs Hle He (i0 & Hi0 & Hc0) days anchor.
  assert (~ (selected_of (checks_of wa) = ∅ /\ selected_of (checks_of wb) = ∅))
    as Hsel.
  { intros [HA HB]. rewrite selected_empty_iff in HA, HB.
    destruct Hc0 as [Hc|Hc]; [rewrite HA in Hc|rewrite HB in Hc];
      (exact Hi0 || discriminate). }
  pose proof (alternating_pattern_ui_spec start end_ wa wb Hs Hle He Hsel) as Hui.
  eexists _, _, _, _, _, _. split; [exact Hui|].
  assert (forall V (a b : V), dom (by_bucket a b) = ({[ "A"; "B" ]} : gset string))
    as Hdom.
  { intros V a b. unfold by_bucket. rewrite dom_insert_L, dom_singleton_L.
    reflexivity. }
  assert (forall V (f : Z -> V) i, i ∈ dom (dict7 f) <-> 0 <= i < 7) as Hd7.
  { intros V f i. rewrite elem_of_dom, lookup_dict7.
    destruct (decide (0 <= i < 7)) as [Hi|Hi].
    - split; [intros _; exact Hi|intros _; eexists; reflexivity].
    - split; [intros [x Hx]; discriminate|intros; contradiction]. }
  split; [apply Hdom|]. split; [apply Hdom|].
  split; [apply lookup_by_bucket_A|]. split; [apply lookup_by_bucket_B|].
  split; [apply lookup_by_bucket_A|]. split; [apply lookup_by_bucket_B|].
  split.
  { intros i. split; [apply Hd7|]. split; [apply Hd7|].
    split; apply Hd7. }
  intros i Hi. rewrite !lookup_dict7, !decide_True by exact Hi.
  split; [reflexivity|]. split; [reflexivity|]. split; reflexivity.
Qed.

Lemma alternating_pattern_ui_returns_witness :
  exists counts hours,
    alternating_pattern_ui (ymd 2024 1 1) (ymd 2024 1 14)
      (first_days 5 8) (first_days 3 6) = Done (counts, hours)
    /\ dom counts = {[ "A"; "B" ]}.
Proof.
  destruct (alternating_pattern_ui_returns (ymd 2024 1 1) (ymd 2024 1 14)
              (first_days 5 8) (first_days 3 6))
    as (counts & hours & cA & cB & hA & hB & Hui & Hdom & _).
  - unfold valid. vm_compute. split; discriminate.
  - vm_compute. discriminate.
  - vm_compute. reflexivity.
  - exists 0. split; [lia|left; reflexivity].
  - exists counts, hours. split; [exact Hui|exact Hdom].
Defined.

(** ** Bounds on the totals *)

Lemma sumZ_fmap_le {A : Type} (f g : A -> Z) (l : list A) :
  (forall x, x ∈ l -> f x <= g x) -> sumZ (f <$> l) <= sumZ (g <$> l).
Proof.
  induction l as [|x l IH]; intros E; [reflexivity|].
  rewrite !fmap_cons, !sumZ_cons.
  assert (f x <= g x) by (apply E; left).
  assert (sumZ (f <$> l) <= sumZ (g <$> l))
    by (apply IH; intros y Hy; apply E; right; exact Hy).
  lia.
Qed.

Lemma sumQ_fmap_le {A : Type} (f g : A -> Q) (l : list A) :
  (forall x, x ∈ l -> (f x <= g x)%Q) -> (sumQ (f <$> l) <= sumQ (g <$> l))%Q.
Proof.
  induction l as [|x l IH]; intros E; [apply Qle_refl|].
  rewrite !fmap_cons, !sumQ_cons. apply Qplus_le_compat.
  - apply E. left.
  - apply IH. intros y Hy. apply E. right. exact Hy.
Qed.

Lemma sumQ_fmap_zero {A : Type} (l : list A) : (sumQ ((fun _ => 0%Q) <$> l) == 0)%Q.
Proof.
  induction l as [|x l IH]; [reflexivity|].
  rewrite fmap_cons, sumQ_cons, IH. ring.
Qed.

Lemma sumQ_scaled_counts {A : Type} (k : Q) (c : A -> Z) (l : list A) :
  (sumQ ((fun x => k * inject_Z (c x)) <$> l) == k * inject_Z (sumZ (c <$> l)))%Q.
Proof.
  induction l as [|x l IH]; [change (0 == k * 0)%Q; ring|].
  rewrite !fmap_cons, sumQ_cons, sumZ_cons, IH, inject_Z_plus. ring.
Qed.

Lemma naive_count_nonneg (days : list date) (w : Z) : 0 <= naive_count days w.
Proof. unfold naive_count. lia. Qed.

Lemma hours_entry_range (w : pattern_widgets) (i : Z) :
  hours_in_range w -> (0 <= hours_entry w i <= 24)%Q.
Proof.
  intros [Hall Hday]. unfold hours_entry. destruct (same_hours w);
    [exact Hall|apply Hday].
Qed.

(** With hours between 0 and 24 and counts that are not negative, the base
    hours of a pattern lie between 0 and 24 times its matching days. *)
Lemma gated_sums_bounds (w : pattern_widgets) (count : Z -> Z) (l : list Z) :
  hours_in_range w -> (forall i, 0 <= count i) ->
  0 <= sumZ (gated_count w count <$> l)
  /\ (0 <= sumQ (gated_term w count <$> l)
      <= 24 * inject_Z (sumZ (gated_count w count <$> l)))%Q.
Proof.
  intros Hh Hc.
  assert (forall i, 0 <= gated_count w count i) as Hg
    by (intros i; unfold gated_count; destruct (chk w i); [apply Hc|lia]).
  assert (forall i, (0 <= gated_hours w i <= 24)%Q) as Hgh.
  { intros i. unfold gated_hours. destruct (chk w i);
      [apply hours_entry_range; exact Hh|split; discriminate]. }
  split; [|split].
  - rewrite <- (sumZ_fmap_zero l). apply sumZ_fmap_le. intros i _. apply Hg.
  - rewrite <- (sumQ_fmap_zero l). apply sumQ_fmap_le. intros i _.
    unfold gated_term. apply Qmult_le_0_compat; [|apply Hgh].
    change 0%Q with (inject_Z 0). rewrite <- Zle_Qle. apply Hg.
  - rewrite <- sumQ_scaled_counts. apply sumQ_fmap_le. intros i _.
    unfold gated_term. rewrite (Qmult_comm (inject_Z _) (gated_hours w i)).
    apply Qmult_le_compat_r; [apply Hgh|].
    change 0%Q with (inject_Z 0). rewrite <- Zle_Qle. apply Hg.
Qed.

Lemma count_weekday_nonneg (start end_ : date) (w : Z) :
  start <= end_ -> 0 <= count_weekday start end_ w.
Proof.
  intros Hle. unfold count_weekday. cbv zeta.
  rewrite (fold_left_count (fun i => (weekday start + i) mod 7 =? w)).
  assert (0 <= count_total_days start end_ / 7).
  { apply Z.div_pos; [|lia]. unfold count_total_days, days_between. lia. }
  lia.
Qed.

Lemma sumZ_count_weekday (start end_ : date) :
  start <= end_ ->
  sumZ (count_weekday start end_ <$> range 7) = count_total_days start end_.
Proof.
  intros Hle. rewrite (sumZ_fmap_ext _ (naive_count (iter_days start end_))).
  - rewrite sumZ_naive_count. apply length_iter_days. lia.
  - intros w Hw. apply elem_of_seqZ in Hw. apply count_weekday_naive; lia.
Qed.

(** In single-pattern mode, on a valid span with a ticked weekday and hours
    inputs within their limits of 0 and 24, the matching days lie between 0
    and the calendar days (all of them when every weekday is ticked) and the
    base hours between 0 and 24 hours per matching day. *)
Theorem single_totals_bounds (start end_ : date) (w : pattern_widgets)
    (unit : string) :
  start <= end_ -> (exists i, 0 <= i < 7 /\ chk w i = true) -> hours_in_range w ->
  exists r,
    pca_single start end_ w unit = Done r
    /\ single_total_calendar_days r = days_between end_ start + 1
    /\ 0 <= single_total_matching_days r <= single_total_calendar_days r
    /\ (0 <= single_base_hours r
        <= 24 * inject_Z (single_total_matching_days r))%Q
    /\ ((forall i, 0 <= i < 7 -> chk w i = true) ->
        single_total_matching_days r = single_total_calendar_days r).
Proof.
  intros Hle (i0 & Hi0 & Hc0) Hh.
  destruct (pca_single_spec start end_ w unit (selected_nonempty w i0 Hi0 Hc0))
    as (r & Hr & Hcal & Hm & Hb & _).
  destruct (gated_sums_bounds w (count_weekday start end_) (range 7) Hh
              (fun i => count_weekday_nonneg start end_ i Hle)) as (H0 & HbL & HbU).
  exists r. split; [exact Hr|]. split; [exact Hcal|].
  rewrite Hcal, Hm, Hb. fold (count_total_days start end_).
  rewrite <- (sumZ_count_weekday start end_ Hle).
  split; [split; [exact H0|]|split; [split; assumption|]].
  - apply sumZ_fmap_le. intros i _. unfold gated_count.
    destruct (chk w i); [lia|apply count_weekday_nonneg; exact Hle].
  - intros Hall. apply sumZ_fmap_ext. intros i Hi. apply elem_of_seqZ in Hi.
    unfold gated_count. rewrite Hall by lia. reflexivity.
Qed.

Lemma single_totals_bounds_witness :
  exists r,
    pca_single (ymd 2024 2 1) (ymd 2024 2 29) (first_days 7 (15 # 2)) "Hourly" = Done r
    /\ single_total_matching_days r = single_total_calendar_days r
    /\ (single_base_hours r <= 24 * inject_Z (single_total_matching_days r))%Q.
Proof.
  destruct (single_totals_bounds (ymd 2024 2 1) (ymd 2024 2 29)
              (first_days 7 (15 # 2)) "Hourly")
    as (r & Hr & _ & _ & [_ Hb] & Hall).
  - vm_compute. discriminate.
  - exists 0. split; [lia|reflexivity].
  - split; [split; discriminate|].
    intros i. simpl. destruct (i <? 5); split; discriminate.
  - exists r. split; [exact Hr|]. split; [|exact Hb].
    apply Hall. intros i Hi. simpl. apply Z.ltb_lt. lia.
Defined.

(** In alternating mode, on a valid span before [date.max] with a ticked
    weekday and hours inputs within their limits, the days of each bucket
    are not negative and the base hours of each bucket lie between 0 and 24
    hours per matching day of the bucket. *)
Theorem alternating_totals_bounds (start end_ : date) (wa wb : pattern_widgets)
    (unit : string) :
  valid start -> start <= end_ -> end_ < MAXORDINAL ->
  (exists i, 0 <= i < 7 /\ (chk wa i = true \/ chk wb i = true)) ->
  hours_in_range wa -> hours_in_range wb ->
  exists r,
    pca_alternating start end_ wa wb unit = Done r
    /\ 0 <= total_days_A r /\ 0 <= total_days_B r
    /\ (0 <= base_hours_A r <= 24 * inject_Z (total_days_A r))%Q
    /\ (0 <= base_hours_B r <= 24 * inject_Z (total_days_B r))%Q
    /\ (0 <= base_hours_total r <= 24 * inject_Z (total_matching_days r))%Q.
Proof.
  intros Hs Hle He (i0 & Hi0 & Hc0) HhA HhB.
  assert (~ (selected_of (checks_of wa) = ∅ /\ selected_of (checks_of wb) = ∅))
    as Hsel.
  { intros [HA HB]. rewrite selected_empty_iff in HA, HB.
    destruct Hc0 as [Hc|Hc]; [rewrite HA in Hc|rewrite HB in Hc];
      (exact Hi0 || discriminate). }
  destruct (pca_alternating_spec start end_ wa wb unit Hs Hle He Hsel)
    as (r & Hr & _ & HA & HB & _ & HbA & HbB & _).
  pose proof (pca_alternating_inv _ _ _ _ _ _ Hr) as (_ & _ & _ & Hbt & Hmt).
  destruct (gated_sums_bounds wa _ (range 7) HhA
              (naive_count_nonneg
                 (days_of_bucket (start - weekday start) "A" (iter_days start end_))))
    as (HA0 & HAL & HAU).
  destruct (gated_sums_bounds wb _ (range 7) HhB
              (naive_count_nonneg
                 (days_of_bucket (start - weekday start) "B" (iter_days start end_))))
    as (HB0 & HBL & HBU).
  rewrite <- HA, <- HbA in *. rewrite <- HB, <- HbB in *.
  exists r. split; [exact Hr|]. split; [exact HA0|]. split; [exact HB0|].
  split; [split; assumption|]. split; [split; assumption|].
  rewrite Hbt, Hmt, inject_Z_plus. split.
  - replace 0%Q with (0 + 0)%Q by reflexivity.
    apply Qplus_le_compat; assumption.
  - rewrite Qmult_plus_distr_r. apply Qplus_le_compat; assumption.
Qed.

Lemma alternating_totals_bounds_witness :
  exists r,
    pca_alternating (ymd 2024 1 1) (ymd 2024 1 14)
      (first_days 5 8) (first_days 3 6) "Hourly" = Done r
    /\ (base_hours_total r <= 24 * inject_Z (total_matching_days r))%Q.
Proof.
  destruct (alternating_totals_bounds (ymd 2024 1 1) (ymd 2024 1 14)
              (first_days 5 8) (first_days 3 6) "Hourly")
    as (r & Hr & _ & _ & _ & _ & [_ Hb]).
  - unfold valid. vm_compute. split; discriminate.
  - vm_compute. discriminate.
  - vm_compute. reflexivity.
  - exists 0. split; [lia|left; reflexivity].
  - split; [split; discriminate|].
    intros i. simpl. destruct (i <? 5); split; discriminate.
  - split; [split; discriminate|].
    intros i. simpl. destruct (i <? 5); split; discriminate.
  - exists r. split; [exact Hr|exact Hb].
Defined.

(** ** CDPAS *)




(** ** Conversion of sums *)

Lemma convert_total_Qeq (h h' : Q) (d : Z) (unit : string) :
  (h == h')%Q -> (convert_total h d unit == convert_total h' d unit)%Q.
Proof.
  intros E. unfold convert_total.
  destruct (String.eqb unit "Hourly"); [exact E|].
  destruct (String.eqb unit "15 mins"); [rewrite E; reflexivity|].
  destruct (String.eqb unit "Per diem"); [reflexivity|exact E].
Qed.

Lemma convert_total_plus (h1 h2 : Q) (d1 d2 : Z) (unit : string) :
  (convert_total (h1 + h2) (d1 + d2) unit
   == convert_total h1 d1 unit + convert_total h2 d2 unit)%Q.
Proof.
  unfold convert_total.
  destruct (String.eqb unit "Hourly"); [reflexivity|].
  destruct (String.eqb unit "15 mins"); [ring|].
  destruct (String.eqb unit "Per diem");
    [rewrite inject_Z_plus; reflexivity|reflexivity].
Qed.

Lemma convert_total_zero (h : Q) (unit : string) :
  (h == 0)%Q -> (convert_total h 0 unit == 0)%Q.
Proof.
  intros E. unfold convert_total.
  destruct (String.eqb unit "Hourly"); [exact E|].
  destruct (String.eqb unit "15 mins"); [rewrite E; reflexivity|].
  destruct (String.eqb unit "Per diem"); [reflexivity|exact E].
Qed.

Lemma convert_total_sum {A : Type} (b : A -> Q) (c : A -> Z) (unit : string)
    (l : list A) :
  (sumQ ((fun x => convert_total (b x) (c x) unit) <$> l)
   == convert_total (sumQ (b <$> l)) (sumZ (c <$> l)) unit)%Q.
Proof.
  induction l as [|x l IH].
  - symmetry. apply convert_total_zero. reflexivity.
  - rewrite !fmap_cons, sumQ_cons, sumZ_cons, IH, <- convert_total_plus.
    apply convert_total_Qeq. symmetry. apply sumQ_cons.
Qed.

(** Conversion is additive in the hours and the days for every unit string,
    also an unrecognized one, and converts nothing to zero; so converting
    the parts of a total and adding up gives the conversion of the total. *)
Theorem convert_total_additive (h1 h2 : Q) (d1 d2 : Z) (unit : string) :
  (convert_total (h1 + h2) (d1 + d2) unit
   == convert_total h1 d1 unit + convert_total h2 d2 unit)%Q
  /\ (convert_total 0 0 unit == 0)%Q
  /\ forall (hs : list Q) (ds : list Z), length hs = length ds ->
       (sumQ ((fun hd : Q * Z => convert_total hd.1 hd.2 unit) <$> zip hs ds)
        == convert_total (sumQ hs) (sumZ ds) unit)%Q.
Proof.
  split; [apply convert_total_plus|].
  split; [apply convert_total_zero; reflexivity|].
  intros hs ds Hlen. rewrite (convert_total_sum fst snd).
  rewrite fst_zip, snd_zip by lia. reflexivity.
Qed.

Lemma convert_total_additive_witness :
  (sumQ ((fun hd : Q * Z => convert_total hd.1 hd.2 "Per diem")
           <$> zip [16; 12; 8]%Q [2; 2; 1]%Z)
   == convert_total (sumQ [16; 12; 8]%Q) (sumZ [2; 2; 1]%Z) "Per diem")%Q.
Proof.
  apply (convert_total_additive 0 0 0 0 "Per diem"). reflexivity.
Defined.

(** ** The metric label and the weekday labels *)

Lemma metric_label_spec (unit : string) :
  metric_label unit
  = match unit_of_name unit with
    | Some Hourly => Done "Total hours"
    | Some QuarterHour => Done "Total 15-min units"
    | Some PerDiem => Done "Total per-diems (days)"
    | None => Raised "KeyError"
    end.
Proof.
  unfold metric_label, metric_labels, getitem, unit_of_name.
  destruct (String.eqb_spec unit "Hourly") as [->|H1]; [reflexivity|].
  rewrite lookup_insert_ne by congruence.
  destruct (String.eqb_spec unit "15 mins") as [->|H2]; [reflexivity|].
  rewrite lookup_insert_ne by congruence.
  destruct (String.eqb_spec unit "Per diem") as [->|H3]; [reflexivity|].
  rewrite lookup_singleton_ne by congruence. reflexivity.
Qed.

Lemma list_getitem_weekday_labels (i : Z) :
  0 <= i < 7 -> list_getitem weekday_labels i = Done (weekday_label i).
Proof.
  intros Hi.
  assert (i = 0 \/ i = 1 \/ i = 2 \/ i = 3 \/ i = 4 \/ i = 5 \/ i = 6) as H by lia.
  destruct H as [->|[->|[->|[->|[->|[->| ->]]]]]]; reflexivity.
Qed.

(** The metric label exists for the three units of the select box and for
    no other string (the comparison is exact, also in case); the weekday
    labels exist for the indices 0..6, and for -7..-1 counted from the end,
    and for no other index. *)
Theorem label_lookups (unit : string) (i : Z) :
  ((exists label, metric_label unit = Done label)
   <-> unit = "Hourly" \/ unit = "15 mins" \/ unit = "Per diem")
  /\ (unit <> "Hourly" -> unit <> "15 mins" -> unit <> "Per diem" ->
      metric_label unit = Raised "KeyError")
  /\ (0 <= i < 7 -> list_getitem weekday_labels i = Done (weekday_label i))
  /\ (-7 <= i < 0 -> list_getitem weekday_labels i = Done (weekday_label (i + 7)))
  /\ (i < -7 \/ 7 <= i -> list_getitem weekday_labels i = Raised "IndexError").
Proof.
  split; [|split; [|split; [|split]]].
  - rewrite metric_label_spec. unfold unit_of_name.
    destruct (String.eqb_spec unit "Hourly") as [->|H1];
      [split; [intros _; left; reflexivity|intros _; eexists; reflexivity]|].
    destruct (String.eqb_spec unit "15 mins") as [->|H2];
      [split; [intros _; right; left; reflexivity|intros _; eexists; reflexivity]|].
    destruct (String.eqb_spec unit "Per diem") as [->|H3];
      [split; [intros _; right; right; reflexivity|intros _; eexists; reflexivity]|].
    split; [intros [l Hl]; discriminate|intros [?|[?|?]]; contradiction].
  - intros H1 H2 H3. rewrite metric_label_spec.
    rewrite (proj2 (unit_of_name_None unit)); [reflexivity|].
    repeat split; assumption.
  - apply list_getitem_weekday_labels.
  - intros Hi.
    assert (i = -7 \/ i = -6 \/ i = -5 \/ i = -4 \/ i = -3 \/ i = -2 \/ i = -1)
      as H by lia.
    destruct H as [->|[->|[->|[->|[->|[->| ->]]]]]]; reflexivity.
  - intros Hi. unfold list_getitem. cbv zeta. change (Z.of_nat (length weekday_labels)) with 7.
    destruct (Z.ltb_spec i 0).
    + destruct (Z.leb_spec 0 (i + 7)); [lia|reflexivity].
    + destruct (Z.leb_spec 0 i); [|lia].
      destruct (Z.ltb_spec i 7); [lia|reflexivity].
Qed.

Lemma label_lookups_witness :
  metric_label "hourly" = Raised "KeyError"
  /\ list_getitem weekday_labels (-1) = Done "Sun"
  /\ list_getitem weekday_labels 7 = Raised "IndexError".
Proof.
  destruct (label_lookups "hourly" (-1)) as (_ & Hk & _ & Hn & _).
  destruct (label_lookups "hourly" 7) as (_ & _ & _ & _ & Ho).
  split; [apply Hk; discriminate|]. split; [apply Hn; lia|apply Ho; lia].
Defined.

(** ** The breakdown tables *)

Lemma StronglySorted_filter {A : Type} (R : relation A) (P : A -> Prop)
    `{!forall x, Decision (P x)} (l : list A) :
  StronglySorted R l -> StronglySorted R (filter P l).
Proof.
  induction 1 as [|x l Hl IH Hx]; [constructor|].
  rewrite filter_cons. destruct (decide (P x)); [|exact IH].
  constructor; [exact IH|].
  apply Forall_forall. intros y Hy. apply list_elem_of_filter in Hy as [_ Hy].
  rewrite Forall_forall in Hx. apply Hx. exact Hy.
Qed.

Lemma sorted_ticked (w : pattern_widgets) (l : list Z) :
  l ≡ₚ filter (fun i => chk w i = true) (range 7) ->
  sorted l = filter (fun i => chk w i = true) (range 7).
Proof.
  intros Hl. unfold sorted. apply (Sorted_unique Z.le).
  - apply Sorted_merge_sort. apply _.
  - apply StronglySorted_Sorted, StronglySorted_filter.
    change (range 7) with [0; 1; 2; 3; 4; 5; 6].
    repeat (constructor; [|repeat (constructor; [lia|]); constructor]).
    constructor.
  - rewrite merge_sort_Permutation. exact Hl.
Qed.

Lemma single_breakdown_spec (start end_ : date) (w : pattern_widgets)
    (unit : string) :
  single_breakdown
    (list_to_map ((fun wd => (wd, count_weekday start end_ wd))
                    <$> elements (selected_of (checks_of w))))
    (hours_of w (selected_of (checks_of w))) unit
  = Done (single_row start end_ w unit
            <$> filter (fun i => chk w i = true) (range 7)).
Proof.
  unfold single_breakdown.
  rewrite (sorted_ticked w).
  2:{ unfold keys. rewrite selected_counts_items, <- list_fmap_compose.
      change (fst ∘ _) with (fun i : Z => i). rewrite list_fmap_id. reflexivity. }
  apply map_outcome_Done. intros i Hi.
  apply list_elem_of_filter in Hi as [Hc Hi]. apply elem_of_seqZ in Hi.
  unfold getitem. rewrite lookup_selected_counts, Hc.
  rewrite bool_decide_true by lia. cbn [andb mbind outcome_bind].
  rewrite list_getitem_weekday_labels by lia. cbn [mbind outcome_bind].
  rewrite dict_get_hours_of by lia. unfold gated_hours. rewrite Hc. reflexivity.
Qed.

(** The breakdown table of the single pattern has one row per ticked weekday,
    in the order Monday to Sunday; its counts add up to the matching days
    and its converted totals to the final total, for every unit. *)
Theorem single_breakdown_adds_up (start end_ : date) (w : pattern_widgets)
    (unit : string) :
  (exists i, 0 <= i < 7 /\ chk w i = true) ->
  exists counts hours r rows,
    single_pattern_ui start end_ w = Done (counts, hours)
    /\ pca_single start end_ w unit = Done r
    /\ single_breakdown counts hours unit = Done rows
    /\ rows = single_row start end_ w unit
                <$> filter (fun i => chk w i = true) (range 7)
    /\ sumZ (row_count <$> rows) = single_total_matching_days r
    /\ (sumQ (row_converted <$> rows) == single_final_total r)%Q.
Proof.
  intros (i0 & Hi0 & Hc0).
  pose proof (selected_nonempty w i0 Hi0 Hc0) as Hsel.
  destruct (pca_single_spec start end_ w unit Hsel) as (r & Hr & _ & Hm & Hb & Hf).
  eexists _, _, r, _. split.
  { unfold single_pattern_ui. rewrite decide_False by exact Hsel. reflexivity. }
  split; [exact Hr|]. split; [apply single_breakdown_spec|].
  split; [reflexivity|]. rewrite <- !list_fmap_compose. split.
  - rewrite Hm. apply (sumZ_filter (count_weekday start end_) (chk w)).
  - rewrite Hf.
    change (row_converted ∘ single_row start end_ w unit)
      with (fun i => convert_total
                       (inject_Z (count_weekday start end_ i) * hours_entry w i)
                       (count_weekday start end_ i) unit).
    rewrite (convert_total_sum
               (fun i => (inject_Z (count_weekday start end_ i) * hours_entry w i)%Q)
               (count_weekday start end_)).
    rewrite Hm, (sumZ_filter (count_weekday start end_) (chk w)).
    apply convert_total_Qeq. rewrite Hb, sumQ_filter.
    apply sumQ_fmap_ext. intros i _. unfold gated_term, gated_count, gated_hours.
    destruct (chk w i); [reflexivity|ring].
Qed.

Lemma single_breakdown_adds_up_witness :
  exists rows,
    single_breakdown
      (list_to_map ((fun wd => (wd, count_weekday (ymd 2024 1 1) (ymd 2024 1 14) wd))
                      <$> elements (selected_of (checks_of (first_days 5 8)))))
      (hours_of (first_days 5 8) (selected_of (checks_of (first_days 5 8))))
      "15 mins" = Done rows
    /\ row_weekday <$> rows = ["Mon"; "Tue"; "Wed"; "Thu"; "Fri"]
    /\ (sumQ (row_converted <$> rows) == 320)%Q.
Proof.
  destruct (single_breakdown_adds_up (ymd 2024 1 1) (ymd 2024 1 14)
              (first_days 5 8) "15 mins")
    as (counts & hours & r & rows & Hui & Hr & Hrows & Heq & _ & Hsum).
  - exists 0. split; [lia|reflexivity].
  - unfold single_pattern_ui in Hui.
    rewrite decide_False in Hui by (apply (first_days_selected 5 8); lia).
    injection Hui as <- <-.
    exists rows. split; [exact Hrows|]. split.
    + rewrite Heq. reflexivity.
    + rewrite Hsum. vm_compute in Hr. injection Hr as <-. reflexivity.
Defined.








(** ** The two counting algorithms agree *)





(** ** The whole script *)






(** With a unit string that the select box does not offer, the PCA pages do
    not appear: the totals are computed, convert_total falling through to
    the hours, and then the lookup of the metric label raises [KeyError]. *)
Theorem unknown_unit_raises_KeyError (start end_ : date)
    (w wa wb : pattern_widgets) (unit : string) :
  unit <> "Hourly" -> unit <> "15 mins" -> unit <> "Per diem" ->
  ((exists i, 0 <= i < 7 /\ chk w i = true) ->
   single_page start end_ w unit = Raised "KeyError"
   /\ exists r, pca_single start end_ w unit = Done r
                /\ single_final_total r = single_base_hours r)
  /\ (valid start -> start <= end_ -> end_ < MAXORDINAL ->
      (exists i, 0 <= i < 7 /\ (chk wa i = true \/ chk wb i = true)) ->
      alternating_page start end_ wa wb unit = Raised "KeyError"
      /\ exists r, pca_alternating start end_ wa wb unit = Done r
                   /\ (final_total r == base_hours_total r)%Q).
Proof.
  intros H1 H2 H3.
  assert (unit_of_name unit = None) as Hu
    by (apply unit_of_name_None; repeat split; assumption).
  split.
  - intros (i0 & Hi0 & Hc0). pose proof (selected_nonempty w i0 Hi0 Hc0) as Hsel.
    destruct (pca_single_spec start end_ w unit Hsel) as (r & Hr & _ & _ & _ & Hf).
    split.
    + unfold single_page, single_pattern_ui. cbv zeta.
      rewrite decide_False by exact Hsel. cbn [mbind outcome_bind].
      change (pca_single start end_ w unit ≫= _)
        with (mbind (M:=outcome)
                (fun r0 => label ← metric_label unit;
                           rows ← single_breakdown
                                    (list_to_map
                                       ((fun wd => (wd, count_weekday start end_ wd))
                                          <$> elements (selected_of (checks_of w))))
                                    (hours_of w (selected_of (checks_of w))) unit;
                           Done (PageSingle r0 label rows))
                (pca_single start end_ w unit)).
      rewrite Hr. cbn [mbind outcome_bind]. rewrite metric_label_spec, Hu.
      reflexivity.
    + exists r. split; [exact Hr|]. rewrite Hf.
      apply convert_total_unrecognized. exact Hu.
  - intros Hs Hle He (i0 & Hi0 & Hc0).
    assert (~ (selected_of (checks_of wa) = ∅ /\ selected_of (checks_of wb) = ∅))
      as Hsel.
    { intros [HA HB]. rewrite selected_empty_iff in HA, HB.
      destruct Hc0 as [Hc|Hc]; [rewrite HA in Hc|rewrite HB in Hc];
        (exact Hi0 || discriminate). }
    destruct (pca_alternating_spec start end_ wa wb unit Hs Hle He Hsel)
      as (r & Hr & _).
    pose proof (pca_alternating_inv _ _ _ _ _ _ Hr) as (Hf & HfA & HfB & Hbt & _).
    split.
    + unfold alternating_page.
      rewrite alternating_pattern_ui_spec by assumption. cbn [mbind outcome_bind].
      rewrite Hr. cbn [mbind outcome_bind]. rewrite metric_label_spec, Hu.
      reflexivity.
    + exists r. split; [exact Hr|]. rewrite Hf, HfA, HfB, Hbt.
      rewrite !convert_total_unrecognized by exact Hu. reflexivity.
Qed.

Lemma unknown_unit_raises_KeyError_witness :
  single_page (ymd 2024 1 1) (ymd 2024 1 14) (first_days 5 8) "hourly"
  = Raised "KeyError".
Proof.
  destruct (unknown_unit_raises_KeyError (ymd 2024 1 1) (ymd 2024 1 14)
              (first_days 5 8) (first_days 5 8) (first_days 3 6) "hourly")
    as [Hsingle _]; try discriminate.
  apply Hsingle. exists 0. split; [lia|reflexivity].
Defined.
